(** * DS1307_startlib: register codec and RAM address mapper

    A shallow embedding of [DS1307_startlib.ino].  Bytes are integers in
    [0, 255] held in [Z], with every narrowing conversion of the sketch
    written out as [to_byte]; the two-wire bus is an explicit state that
    the functions thread, and the device at the other end of the bus is an
    arbitrary deterministic responder. *)

From Stdlib Require Import ZArith List Bool String Lia.
Import ListNotations.
Local Open Scope Z_scope.

(** ** Machine integers *)

(** Conversion to [byte] (uint8_t): the value modulo 256. *)
Definition to_byte (z : Z) : Z := z mod 256.

(** Conversion of an integer to [bool]: nonzero is true. *)
Definition to_bool (z : Z) : bool := negb (z =? 0).

(** Promotion of a [bool] to an integer. *)
Definition of_bool (b : bool) : Z := if b then 1 else 0.

(** ** Constants of the sketch *)

Definition CLOCK_ADDR : Z := 104.

Definition SEC_ADDR : Z := 0x00.
Definition MIN_ADDR : Z := 0x01.
Definition HOUR_ADDR : Z := 0x02.
Definition DAY_ADDR : Z := 0x03.
Definition DATE_ADDR : Z := 0x04.
Definition MONTH_ADDR : Z := 0x05.
Definition YEAR_ADDR : Z := 0x06.

Definition RTC_RAM_LOWER : Z := 0x08.
Definition RTC_RAM_UPPER : Z := 0x3F.

(** [#define getSafeRamAddr(addr) (RTC_RAM_LOWER + (addr%57))].
    The remainder is the one of C, which truncates towards zero. *)
Definition getSafeRamAddr (addr : Z) : Z := RTC_RAM_LOWER + Z.rem addr 57.

(** [#define clamp(val, minVal, maxVal)
       ((val<minVal)?minVal:(val>maxVal)? maxVal: val)]. *)
Definition clamp (val minVal maxVal : Z) : Z :=
  if val <? minVal then minVal else if val >? maxVal then maxVal else val.

(** ** Data *)

(** [typedef enum { AM, PM, NONE } amOrPm;] *)
Inductive amOrPm : Type := AM | PM | NONE.

(** The integer an [amOrPm] promotes to in an arithmetic expression. *)
Definition amOrPm_val (m : amOrPm) : Z :=
  match m with AM => 0 | PM => 1 | NONE => 2 end.

(** [typedef enum { MONDAY=1, TUESDAY, ... , SUNDAY } Dow;]
    A [Dow] object is an integer: a zero-initialised [Date] holds 0, which
    is none of the enumerators. *)
Definition Dow : Type := Z.
Definition MONDAY : Dow := 1.
Definition TUESDAY : Dow := 2.
Definition WEDNESDAY : Dow := 3.
Definition THURSDAY : Dow := 4.
Definition FRIDAY : Dow := 5.
Definition SATURDAY : Dow := 6.
Definition SUNDAY : Dow := 7.

Record Time : Type := mkTime {
  disableOsc : bool;
  second : Z;
  minut : Z;
  hour : Z;
  is12Hour : bool;
  meridianIndicator : amOrPm
}.

Record Date : Type := mkDate {
  dow : Dow;
  date : Z;
  month : Z;
  year : Z
}.

Definition set_disableOsc (v : bool) (t : Time) : Time :=
  mkTime v (second t) (minut t) (hour t) (is12Hour t) (meridianIndicator t).
Definition set_second (v : Z) (t : Time) : Time :=
  mkTime (disableOsc t) v (minut t) (hour t) (is12Hour t) (meridianIndicator t).
Definition set_minut (v : Z) (t : Time) : Time :=
  mkTime (disableOsc t) (second t) v (hour t) (is12Hour t) (meridianIndicator t).
Definition set_hour (v : Z) (t : Time) : Time :=
  mkTime (disableOsc t) (second t) (minut t) v (is12Hour t) (meridianIndicator t).
Definition set_is12Hour (v : bool) (t : Time) : Time :=
  mkTime (disableOsc t) (second t) (minut t) (hour t) v (meridianIndicator t).
Definition set_meridianIndicator (v : amOrPm) (t : Time) : Time :=
  mkTime (disableOsc t) (second t) (minut t) (hour t) (is12Hour t) v.

Definition set_dow (v : Dow) (d : Date) : Date :=
  mkDate v (date d) (month d) (year d).
Definition set_date (v : Z) (d : Date) : Date :=
  mkDate (dow d) v (month d) (year d).
Definition set_month (v : Z) (d : Date) : Date :=
  mkDate (dow d) (date d) v (year d).
Definition set_year (v : Z) (d : Date) : Date :=
  mkDate (dow d) (date d) (month d) v.

(** ** BCD encoder *)

(** [byte cvtDec2Bcd(byte num)]: the argument is narrowed to a byte on
    entry, the digits are bytes, the shift and the or are computed on
    [int], and the result is narrowed to a byte on return. *)
Definition cvtDec2Bcd (num : Z) : Z :=
  let num := to_byte num in
  let ones := to_byte (num mod 10) in
  let tens := to_byte (num / 10) in
  to_byte (Z.lor (Z.shiftl tens 4) ones).

(** ** Register images written by the encoders *)

(** Seconds register, [configureTime] lines 162-166; the argument of
    [Wire.write] is narrowed to a byte. *)
Definition secondsRegister (t : Time) : Z :=
  let ch := to_byte (Z.shiftl (of_bool (disableOsc t)) 7) in
  to_byte (Z.lor ch (cvtDec2Bcd (clamp (second t) 0 59))).

(** Minutes register, line 170. *)
Definition minutesRegister (t : Time) : Z :=
  to_byte (cvtDec2Bcd (clamp (minut t) 0 59)).

(** Hours register, lines 172-193: the local [hour]. *)
Definition hoursRegister (t : Time) : Z :=
  if is12Hour t then
    let is12h := to_byte (Z.shiftl (of_bool (is12Hour t)) 6) in
    let amPm := to_byte (Z.shiftl (amOrPm_val (meridianIndicator t)) 5) in
    let times := cvtDec2Bcd (clamp (hour t) 1 12) in
    to_byte (Z.lor (Z.lor is12h amPm) times)
  else
    let is12h := to_byte (Z.shiftl (of_bool (is12Hour t)) 6) in
    let times := cvtDec2Bcd (clamp (hour t) 0 23) in
    to_byte (Z.lor is12h times).

(** The three data bytes [configureTime] queues after the word address. *)
Definition timeRegisters (t : Time) : list Z :=
  [secondsRegister t; minutesRegister t; hoursRegister t].

(** The four data bytes [configureDate] queues after the word address,
    lines 135-144. *)
Definition dateRegisters (d : Date) : list Z :=
  [ to_byte (cvtDec2Bcd (clamp (dow d) 1 7));
    to_byte (cvtDec2Bcd (clamp (date d) 1 31));
    to_byte (cvtDec2Bcd (clamp (month d) 1 12));
    to_byte (cvtDec2Bcd (clamp (year d) 0 99)) ].

(** ** Register images read by the decoders *)

(** One turn of the loop of [readTime] (lines 416-471) on the byte [val]
    with the loop counter at [i]; the fields of [*timeOut] it stores
    into are updated, the others are kept. *)
Definition readTime_step (val i : Z) (timeOut : Time) : Time :=
  if i <? 2 then
    let tens := to_byte (Z.land (Z.shiftr val 4) 0x07) in
    let units := to_byte (Z.land val 0x0F) in
    let res := tens * 10 + units in
    if i =? 0 then
      let hc := to_bool (Z.land (Z.shiftr val 4) 0x08) in
      set_second (to_byte res) (set_disableOsc hc timeOut)
    else
      set_minut (to_byte res) timeOut
  else if i =? 2 then
    let is12Hour_ := to_bool (Z.land val (Z.shiftl 1 6)) in
    let timeOut := set_is12Hour is12Hour_ timeOut in
    if is12Hour_ then
      let isPM := to_bool (Z.land val (Z.shiftl 1 5)) in
      let timeOut := set_meridianIndicator (if isPM then PM else AM) timeOut in
      let hour_ten := to_byte (Z.land (Z.shiftr val 4) 0x01) in
      let hour_unit := to_byte (Z.land val 0x0F) in
      let hour_ := to_byte (hour_ten * 10 + hour_unit) in
      set_hour hour_ timeOut
    else
      let timeOut := set_meridianIndicator NONE timeOut in
      let hour_ten := to_byte (Z.land (Z.shiftr val 4) 0x03) in
      let hour_unit := to_byte (Z.land val 0x0F) in
      let hour_ := to_byte (hour_ten * 10 + hour_unit) in
      set_hour hour_ timeOut
  else timeOut.

(** The inner [switch(val & 0x07)] of [readDate] (lines 295-327): [dow_]
    starts as [MONDAY] and no case matches 0. *)
Definition readDate_dow (val : Z) : Dow :=
  match Z.land val 0x07 with
  | 1 => MONDAY
  | 2 => TUESDAY
  | 3 => WEDNESDAY
  | 4 => THURSDAY
  | 5 => FRIDAY
  | 6 => SATURDAY
  | 7 => SUNDAY
  | _ => MONDAY
  end.

(** One turn of the loop of [readDate] (lines 286-354): [switch(i)]. *)
Definition readDate_step (val i : Z) (dateOut : Date) : Date :=
  match i with
  | 0 => set_dow (readDate_dow val) dateOut
  | 1 =>
      let units := to_byte (Z.land val 0x0F) in
      let tens := to_byte (Z.land (Z.shiftr val 4) 0x03) in
      set_date (to_byte (tens * 10 + units)) dateOut
  | 2 =>
      let units := to_byte (Z.land val 0x0F) in
      let tens := to_byte (Z.land (Z.shiftr val 4) 0x01) in
      set_month (to_byte (tens * 10 + units)) dateOut
  | 3 =>
      let units := to_byte (Z.land val 0x0F) in
      let tens := to_byte (Z.land (Z.shiftr val 4) 0x0F) in
      set_year (to_byte (tens * 10 + units)) dateOut
  | _ => dateOut
  end.

(** [while (Wire.available() > 0) { byte val = Wire.read(); ...; i++; }]
    Every turn takes one byte out of the receive buffer, so the loop
    runs once per buffered byte, in order, and ends with the buffer
    empty; [i] is a byte and wraps. *)
Fixpoint readTime_loop (rx : list Z) (i : Z) (timeOut : Time) : Time :=
  match rx with
  | [] => timeOut
  | b :: rest =>
      readTime_loop rest (to_byte (i + 1)) (readTime_step (to_byte b) i timeOut)
  end.

Fixpoint readDate_loop (rx : list Z) (i : Z) (dateOut : Date) : Date :=
  match rx with
  | [] => dateOut
  | b :: rest =>
      readDate_loop rest (to_byte (i + 1)) (readDate_step (to_byte b) i dateOut)
  end.

(** ** The two-wire bus *)

(** What went over the bus: a write transaction with the status the
    master got back, or a read request with the bytes delivered. *)
Inductive BusEvent : Type :=
| Transmitted (addr : Z) (bytes : list Z) (sendStop : bool) (status : Z)
| Requested (addr : Z) (quantity : Z) (sendStop : bool) (bytes : list Z).

(** The far end of the bus: any deterministic function of what has
    happened on the bus so far. *)
Record Peer : Type := mkPeer {
  ack : list BusEvent -> Z -> list Z -> bool -> Z;
  reply : list BusEvent -> Z -> Z -> bool -> list Z
}.

(** The state of the [Wire] and [Serial] objects. *)
Record Wire : Type := mkWire {
  txAddress : Z;
  txBuffer : list Z;
  rxBuffer : list Z;
  trace : list BusEvent;
  serialOut : list string
}.

Definition M (A : Type) : Type := Wire -> A * Wire.

Definition ret {A : Type} (a : A) : M A := fun w => (a, w).

Definition bind {A B : Type} (c : M A) (k : A -> M B) : M B :=
  fun w => let r := c w in k (fst r) (snd r).

Notation "x <- c ;; k" := (bind c (fun x => k))
  (at level 61, c at next level, right associativity).
Notation "c ;; k" := (bind c (fun _ => k))
  (at level 61, right associativity).

Section Bus.

Variable peer : Peer.

Definition Wire_beginTransmission (addr : Z) : M unit := fun w =>
  (tt, mkWire (to_byte addr) [] (rxBuffer w) (trace w) (serialOut w)).

Definition Wire_write (b : Z) : M unit := fun w =>
  (tt, mkWire (txAddress w) (txBuffer w ++ [to_byte b]) (rxBuffer w)
         (trace w) (serialOut w)).

(** The status the peer answers the queued transaction with, as a byte. *)
Definition busStatus (w : Wire) (sendStop : bool) : Z :=
  to_byte (ack peer (trace w) (txAddress w) (txBuffer w) sendStop).

Definition Wire_endTransmission (sendStop : bool) : M Z := fun w =>
  let status := busStatus w sendStop in
  (status,
   mkWire (txAddress w) [] (rxBuffer w)
     (trace w ++ [Transmitted (txAddress w) (txBuffer w) sendStop status])
     (serialOut w)).

(** The bytes the peer delivers to a read request.  The model does not
    cut the reply at [quantity]: what is proved for every reply holds for
    the ones the hardware can deliver. *)
Definition busReply (w : Wire) (addr quantity : Z) (sendStop : bool) : list Z :=
  map to_byte (reply peer (trace w) addr quantity sendStop).

Definition Wire_requestFrom (addr quantity : Z) (sendStop : bool) : M Z := fun w =>
  let bytes := busReply w addr quantity sendStop in
  (Z.of_nat (List.length bytes),
   mkWire (txAddress w) (txBuffer w) bytes
     (trace w ++ [Requested addr quantity sendStop bytes])
     (serialOut w)).

Definition Wire_available : M Z := fun w =>
  (Z.of_nat (List.length (rxBuffer w)), w).

Definition Wire_read : M Z := fun w =>
  match rxBuffer w with
  | [] => (-1, w)
  | b :: rest =>
      (b, mkWire (txAddress w) (txBuffer w) rest (trace w) (serialOut w))
  end.

Definition Serial_println (s : string) : M unit := fun w =>
  (tt, mkWire (txAddress w) (txBuffer w) (rxBuffer w) (trace w)
         (serialOut w ++ [s])).

(** ** The functions of the sketch *)

(** [void configureDate(Date* d)] *)
Definition configureDate (d : Date) : M unit :=
  Wire_beginTransmission CLOCK_ADDR ;;
  Wire_write DAY_ADDR ;;
  Wire_write (cvtDec2Bcd (clamp (dow d) 1 7)) ;;
  Wire_write (cvtDec2Bcd (clamp (date d) 1 31)) ;;
  Wire_write (cvtDec2Bcd (clamp (month d) 1 12)) ;;
  Wire_write (cvtDec2Bcd (clamp (year d) 0 99)) ;;
  status <- Wire_endTransmission true ;;
  if to_bool status then Serial_println "Date configured correctly"
  else ret tt.

(** [void configureTime(Time* t)] *)
Definition configureTime (t : Time) : M unit :=
  Wire_beginTransmission CLOCK_ADDR ;;
  Wire_write SEC_ADDR ;;
  Wire_write (secondsRegister t) ;;
  Wire_write (minutesRegister t) ;;
  Wire_write (hoursRegister t) ;;
  status <- Wire_endTransmission true ;;
  if status =? 0 then Serial_println "The hour was configured succesfully"
  else ret tt.

(** The loops of the readers: they empty the receive buffer. *)
Definition readTime_drain (timeOut : Time) : M Time := fun w =>
  (readTime_loop (rxBuffer w) 0 timeOut,
   mkWire (txAddress w) (txBuffer w) [] (trace w) (serialOut w)).

Definition readDate_drain (dateOut : Date) : M Date := fun w =>
  (readDate_loop (rxBuffer w) 0 dateOut,
   mkWire (txAddress w) (txBuffer w) [] (trace w) (serialOut w)).

(** [void readDate(Date* dateOut)]: the result is [*dateOut] on return. *)
Definition readDate (dateOut : Date) : M Date :=
  Wire_beginTransmission CLOCK_ADDR ;;
  Wire_write DAY_ADDR ;;
  res <- Wire_endTransmission false ;;
  if res =? 0 then
    Wire_requestFrom CLOCK_ADDR 4 true ;;
    readDate_drain dateOut
  else
    ret dateOut.

(** [void readTime(Time* timeOut)]: the result is [*timeOut] on return. *)
Definition readTime (timeOut : Time) : M Time :=
  Wire_beginTransmission CLOCK_ADDR ;;
  Wire_write SEC_ADDR ;;
  res <- Wire_endTransmission false ;;
  if res =? 0 then
    Wire_requestFrom CLOCK_ADDR 3 true ;;
    readTime_drain timeOut
  else
    ret timeOut.

(** [byte loadFromRTCRAM(byte initAddr)]: [None] when control leaves the
    loop without a [return], where the sketch yields no defined value. *)
Definition loadFromRTCRAM (initAddr : Z) : M (option Z) :=
  let initAddr := to_byte initAddr in
  let addr := to_byte (getSafeRamAddr initAddr) in
  Wire_beginTransmission CLOCK_ADDR ;;
  Wire_write addr ;;
  Wire_endTransmission false ;;
  Wire_requestFrom CLOCK_ADDR 1 true ;;
  n <- Wire_available ;;
  if n >? 0 then
    data <- Wire_read ;;
    ret (Some (to_byte data))
  else
    ret None.

(** [bool saveInRTCRAM(byte initAddr, byte data)] *)
Definition saveInRTCRAM (initAddr data : Z) : M bool :=
  let initAddr := to_byte initAddr in
  let data := to_byte data in
  Wire_beginTransmission CLOCK_ADDR ;;
  let addr := to_byte (getSafeRamAddr initAddr) in
  Wire_write addr ;;
  Wire_write data ;;
  status <- Wire_endTransmission true ;;
  if status =? 0 then ret true else ret false.

End Bus.

(** The values [setup()] stores into the statics [confTime] and
    [confDate] before it sends them. *)
Definition confTime : Time := mkTime true 58 37 20 false AM.
Definition confDate : Date := mkDate MONDAY 29 10 97.

(** ** Validity of the structured values *)

(** Ranges of the two mode-independent fields of a time value. *)
Definition timeFieldsInRange (t : Time) : Prop :=
  0 <= second t <= 59 /\ 0 <= minut t <= 59.

(** The mode invariant: a 24-hour value carries no meridian and an hour in
    [0, 23]; a 12-hour value carries AM or PM and an hour in [1, 12]. *)
Definition modeInvariant (t : Time) : Prop :=
  (is12Hour t = false -> meridianIndicator t = NONE /\ 0 <= hour t <= 23) /\
  (is12Hour t = true ->
     1 <= hour t <= 12 /\
     (meridianIndicator t = AM \/ meridianIndicator t = PM)).

Definition validDate (d : Date) : Prop :=
  1 <= dow d <= 7 /\ 1 <= date d <= 31 /\
  1 <= month d <= 12 /\ 0 <= year d <= 99.

Definition validDow (v : Dow) : Prop := MONDAY <= v <= SUNDAY.

(** ** Decoded digits *)

(** The two-digit value the decoders form from a register byte: the tens
    are the high nibble under [tensMask], the units the low nibble. *)
Definition bcdValue (val tensMask : Z) : Z :=
  to_byte (to_byte (Z.land (Z.shiftr val 4) tensMask) * 10
           + to_byte (Z.land val 0x0F)).

(** ** Bus fixtures *)

(** The bus right after [Wire.begin()]: nothing queued, nothing received,
    nothing sent. *)
Definition Wire_idle : Wire := mkWire 0 [] [] [] [].

(** A peer that answers every write transaction with [status] and every
    read request with [bytes]. *)
Definition fixedPeer (status : Z) (bytes : list Z) : Peer :=
  mkPeer (fun _ _ _ _ => status) (fun _ _ _ _ => bytes).

(** ** Exhaustive checks over a range *)

(** [range_all p lo n]: [p] holds at [lo], [lo + 1], ..., [lo + n - 1]. *)
Fixpoint range_all (p : Z -> bool) (lo : Z) (n : nat) : bool :=
  match n with
  | O => true
  | S k => p lo && range_all p (lo + 1) k
  end.

Definition amOrPm_eqb (a b : amOrPm) : bool :=
  match a, b with
  | AM, AM | PM, PM | NONE, NONE => true
  | _, _ => false
  end.

(** A field that is clamped to [[lo, hi]], BCD-encoded, written, read
    back and decoded under [tensMask] comes back as it was. *)
Definition bcd_field_ok (lo hi tensMask v : Z) : bool :=
  bcdValue (to_byte (cvtDec2Bcd (clamp v lo hi))) tensMask =? v.

(** The seconds register read back gives the seconds and the
    clock-halt flag it was made from. *)
Definition seconds_ok (osc : bool) (s : Z) : bool :=
  let val := secondsRegister (mkTime osc s 0 0 false NONE) in
  (bcdValue val 0x07 =? s) &&
  Bool.eqb (to_bool (Z.land (Z.shiftr val 4) 0x08)) osc.

(** The hours register of a 24-hour value read back: mode bit clear,
    hour under the two-bit tens mask. *)
Definition hours24_ok (h : Z) : bool :=
  let val := hoursRegister (mkTime false 0 0 h false NONE) in
  negb (to_bool (Z.land val (Z.shiftl 1 6))) &&
  (bcdValue val 0x03 =? h).

(** The hours register of a 12-hour value read back: mode bit set,
    meridian bit as encoded, hour under the one-bit tens mask. *)
Definition hours12_ok (pm : bool) (h : Z) : bool :=
  let val := hoursRegister (mkTime false 0 0 h true (if pm then PM else AM)) in
  to_bool (Z.land val (Z.shiftl 1 6)) &&
  Bool.eqb (to_bool (Z.land val (Z.shiftl 1 5))) pm &&
  (bcdValue val 0x01 =? h).

(** The day-of-week register read back. *)
Definition dow_ok (v : Z) : bool :=
  readDate_dow (to_byte (cvtDec2Bcd (clamp v 1 7))) =? v.

(** ** What a value becomes on its way through the registers *)

(** The time value the register images stand for: each count clamped
    to the range of its register, the meridian reduced to the one bit the
    12-hour layout has for it, and none in 24-hour mode. *)
Definition clampedTime (t : Time) : Time :=
  mkTime (disableOsc t)
    (clamp (second t) 0 59)
    (clamp (minut t) 0 59)
    (if is12Hour t then clamp (hour t) 1 12 else clamp (hour t) 0 23)
    (is12Hour t)
    (if is12Hour t then
       match meridianIndicator t with PM => PM | _ => AM end
     else NONE).

(** The date value the register images stand for. *)
Definition clampedDate (d : Date) : Date :=
  mkDate (clamp (dow d) 1 7) (clamp (date d) 1 31)
    (clamp (month d) 1 12) (clamp (year d) 0 99).

(** Mode and meridian agree: AM or PM in 12-hour mode, none otherwise. *)
Definition meridianAgrees (t : Time) : Prop :=
  if is12Hour t then meridianIndicator t = AM \/ meridianIndicator t = PM
  else meridianIndicator t = NONE.

(** The largest counts the readers can form from three bytes: the tens
    mask times ten plus a full low nibble. *)
Definition decodedTimeBounds (t : Time) : Prop :=
  0 <= second t <= 85 /\ 0 <= minut t <= 85 /\
  0 <= hour t <= (if is12Hour t then 25 else 45).

Definition decodedDateBounds (d : Date) : Prop :=
  1 <= dow d <= 7 /\ 0 <= date d <= 45 /\
  0 <= month d <= 25 /\ 0 <= year d <= 165.

(** ** Lemmas *)

Lemma range_all_spec (p : Z -> bool) (n : nat) :
  forall lo, range_all p lo n = true ->
  forall z, lo <= z < lo + Z.of_nat n -> p z = true.
Proof.
  induction n as [|k IH]; intros lo Hall z Hz.
  - simpl in Hz. lia.
  - simpl in Hall. apply andb_true_iff in Hall as [Hlo Hrest].
    destruct (Z.eq_dec z lo) as [->|Hne]; [exact Hlo|].
    apply (IH (lo + 1) Hrest). lia.
Qed.

Lemma to_byte_small (z : Z) : 0 <= z < 256 -> to_byte z = z.
Proof. intros Hz. unfold to_byte. apply Z.mod_small. exact Hz. Qed.

Lemma to_byte_range (z : Z) : 0 <= to_byte z < 256.
Proof. unfold to_byte. apply Z.mod_pos_bound. lia. Qed.

(** Or-ing a value shifted left by [n] with one that fits in [n] bits
    adds them: no bit is shared. *)
Lemma lor_shiftl_low (t o n : Z) :
  0 <= n -> 0 <= o < 2 ^ n ->
  Z.lor (Z.shiftl t n) o = t * 2 ^ n + o.
Proof.
  intros Hn Ho.
  assert (Hdisj : Z.land (Z.shiftl t n) o = 0).
  { apply Z.bits_inj'. intros i Hi.
    rewrite Z.land_spec, Z.bits_0.
    destruct (Z.lt_ge_cases i n) as [Hlt|Hge].
    - rewrite Z.shiftl_spec_low by exact Hlt. reflexivity.
    - rewrite <- (Z.mod_small o (2 ^ n)) by exact Ho.
      rewrite Z.mod_pow2_bits_high by lia.
      apply andb_false_r. }
  pose proof (Z.add_lor_land (Z.shiftl t n) o) as Hadd.
  rewrite Hdisj in Hadd.
  rewrite <- (Z.shiftl_mul_pow2 t n) by exact Hn.
  lia.
Qed.

(** The BCD byte of a number below 100 is sixteen times its tens plus
    its units. *)
Lemma cvtDec2Bcd_digits (v : Z) :
  0 <= v <= 99 -> cvtDec2Bcd v = 16 * (v / 10) + v mod 10.
Proof.
  intros Hv. unfold cvtDec2Bcd.
  assert (Htens : 0 <= v / 10 <= 9).
  { split; [apply Z.div_pos; lia|].
    apply Z.lt_succ_r. apply Z.div_lt_upper_bound; lia. }
  assert (Hones : 0 <= v mod 10 < 10) by (apply Z.mod_pos_bound; lia).
  rewrite (to_byte_small v) by lia.
  rewrite (to_byte_small (v mod 10)) by lia.
  rewrite (to_byte_small (v / 10)) by lia.
  rewrite (lor_shiftl_low (v / 10) (v mod 10) 4) by (simpl; lia).
  change (2 ^ 4) with 16.
  rewrite to_byte_small by lia. lia.
Qed.

(** *** C7 *)

(** C7: for every value in [0, 99] the BCD encoder [cvtDec2Bcd] returns
    [(tens << 4) | ones] with [tens = value / 10] and [ones = value % 10];
    in particular it maps 0 to 0x00, 59 to 0x59 and 99 to 0x99. *)
Theorem cvtDec2Bcd_spec :
  forall value, 0 <= value <= 99 ->
    cvtDec2Bcd value = Z.lor (Z.shiftl (value / 10) 4) (value mod 10) /\
    cvtDec2Bcd 0 = 0x00 /\ cvtDec2Bcd 59 = 0x59 /\ cvtDec2Bcd 99 = 0x99.
Proof.
  intros value Hv. split; [|repeat split; reflexivity].
  rewrite cvtDec2Bcd_digits by exact Hv.
  assert (Hones : 0 <= value mod 10 < 10) by (apply Z.mod_pos_bound; lia).
  rewrite (lor_shiftl_low (value / 10) (value mod 10) 4) by (simpl; lia).
  change (2 ^ 4) with 16. lia.
Qed.

Lemma cvtDec2Bcd_spec_witness :
  0 <= 59 <= 99 /\
  cvtDec2Bcd 59 = Z.lor (Z.shiftl (59 / 10) 4) (59 mod 10).
Proof.
  split; [lia|]. apply (cvtDec2Bcd_spec 59). lia.
Defined.

(** *** RAM address mapper *)

(** On a byte offset the mapper stays in [0x08, 0x40]: the remainder
    modulo 57 ranges over 0..56. *)
Lemma getSafeRamAddr_byte_range (addr : Z) :
  0 <= addr <= 255 ->
  RTC_RAM_LOWER <= getSafeRamAddr addr <= RTC_RAM_UPPER + 1.
Proof.
  intros Ha. unfold getSafeRamAddr, RTC_RAM_LOWER, RTC_RAM_UPPER.
  rewrite Z.rem_mod_nonneg by lia.
  pose proof (Z.mod_pos_bound addr 57). lia.
Qed.

(** [saveInRTCRAM] run on any bus: one write transaction of the mapped
    address and the data byte, and the verdict on its status. *)
Lemma saveInRTCRAM_run (peer : Peer) (initAddr data : Z) (w : Wire) :
  let addr := to_byte (getSafeRamAddr (to_byte initAddr)) in
  let status := to_byte (ack peer (trace w) CLOCK_ADDR [addr; to_byte data] true) in
  saveInRTCRAM peer initAddr data w =
  (status =? 0,
   mkWire CLOCK_ADDR [] (rxBuffer w)
     (trace w ++ [Transmitted CLOCK_ADDR [addr; to_byte data] true status])
     (serialOut w)).
Proof.
  unfold saveInRTCRAM, bind, Wire_beginTransmission, Wire_write,
    Wire_endTransmission, busStatus, ret.
  cbn [fst snd trace txAddress txBuffer rxBuffer serialOut app].
  rewrite !(to_byte_small (to_byte _)) by apply to_byte_range.
  change (to_byte CLOCK_ADDR) with CLOCK_ADDR.
  destruct (_ =? 0); reflexivity.
Qed.

(** C1: at offset 56 the mapper [getSafeRamAddr] yields 0x40, one past
    the upper end 0x3F of the storage window, and [saveInRTCRAM] puts
    that address on the bus as the word address of its write. *)
Theorem getSafeRamAddr_56_outside_window :
  getSafeRamAddr 56 = 0x40 /\
  RTC_RAM_UPPER < getSafeRamAddr 56 /\
  forall (peer : Peer) (data : Z) (w : Wire),
    exists status,
      trace (snd (saveInRTCRAM peer 56 data w)) =
      trace w ++ [Transmitted CLOCK_ADDR [0x40; to_byte data] true status].
Proof.
  split; [reflexivity|]. split; [reflexivity|].
  intros peer data w. eexists.
  rewrite saveInRTCRAM_run. reflexivity.
Qed.

(** C2: the mapper wraps at 57, not at 56: offset 5 maps to the window
    start plus 5, but offset 56 maps to the window start plus 56 and
    offset 200 to the window start plus 29, where 200 mod 56 is 32. *)
Theorem getSafeRamAddr_wraps_at_57 :
  getSafeRamAddr 5 = RTC_RAM_LOWER + 5 /\
  getSafeRamAddr 56 = RTC_RAM_LOWER + 56 /\
  getSafeRamAddr 56 <> RTC_RAM_LOWER + 0 /\
  getSafeRamAddr 200 = RTC_RAM_LOWER + 29 /\
  getSafeRamAddr 200 <> RTC_RAM_LOWER + 200 mod 56.
Proof.
  repeat split; try reflexivity; vm_compute; discriminate.
Qed.

(** *** What the encoders put on the bus *)

Lemma secondsRegister_byte (t : Time) : to_byte (secondsRegister t) = secondsRegister t.
Proof. apply to_byte_small, to_byte_range. Qed.

Lemma minutesRegister_byte (t : Time) : to_byte (minutesRegister t) = minutesRegister t.
Proof. apply to_byte_small, to_byte_range. Qed.

Lemma hoursRegister_byte (t : Time) : to_byte (hoursRegister t) = hoursRegister t.
Proof.
  apply to_byte_small. unfold hoursRegister.
  destruct (is12Hour t); apply to_byte_range.
Qed.

(** [configureTime] performs one write transaction: the word address of
    the seconds register followed by the three register images. *)
Lemma configureTime_trace (peer : Peer) (t : Time) (w : Wire) :
  trace (snd (configureTime peer t w)) =
  trace w ++
  [Transmitted CLOCK_ADDR (SEC_ADDR :: timeRegisters t) true
     (to_byte (ack peer (trace w) CLOCK_ADDR (SEC_ADDR :: timeRegisters t) true))].
Proof.
  unfold configureTime, bind, Wire_beginTransmission, Wire_write,
    Wire_endTransmission, busStatus, ret, Serial_println, timeRegisters.
  cbn [fst snd trace txAddress txBuffer rxBuffer serialOut app].
  rewrite secondsRegister_byte, minutesRegister_byte, hoursRegister_byte.
  change (to_byte CLOCK_ADDR) with CLOCK_ADDR.
  change (to_byte SEC_ADDR) with SEC_ADDR.
  destruct (_ =? 0); reflexivity.
Qed.

(** [configureDate] performs one write transaction: the word address of
    the day-of-week register followed by the four register images. *)
Lemma configureDate_trace (peer : Peer) (d : Date) (w : Wire) :
  trace (snd (configureDate peer d w)) =
  trace w ++
  [Transmitted CLOCK_ADDR (DAY_ADDR :: dateRegisters d) true
     (to_byte (ack peer (trace w) CLOCK_ADDR (DAY_ADDR :: dateRegisters d) true))].
Proof.
  unfold configureDate, bind, Wire_beginTransmission, Wire_write,
    Wire_endTransmission, busStatus, ret, Serial_println, dateRegisters.
  cbn [fst snd trace txAddress txBuffer rxBuffer serialOut app].
  change (to_byte CLOCK_ADDR) with CLOCK_ADDR.
  change (to_byte DAY_ADDR) with DAY_ADDR.
  destruct (to_bool _); reflexivity.
Qed.

(** *** C3 *)

(** C3 as stated fails: for hour 11, PM, 12-hour mode the hours register
    image is not 0b01100001 (0x61). *)
Lemma hoursRegister_11PM_not_0x61 :
  hoursRegister (mkTime false 0 0 11 true PM) <> 0x61.
Proof. vm_compute. discriminate. Qed.

(** C3 (amended): encoding hour 11, PM, 12-hour mode writes the hours
    register byte 0b01110001 (0x71: bit 6 set, bit 5 set, tens 1, units
    1), and encoding hour 23 in 24-hour mode writes 0b00100011 (0x23);
    each is the fourth byte [configureTime] queues. *)
Theorem hoursRegister_examples :
  forall (osc : bool) (s m : Z) (mer : amOrPm),
    hoursRegister (mkTime osc s m 11 true PM) = 0x71 /\
    hoursRegister (mkTime osc s m 23 false mer) = 0x23 /\
    forall (peer : Peer) (w : Wire),
      (exists b0 b1 status,
         trace (snd (configureTime peer (mkTime osc s m 11 true PM) w)) =
         trace w ++ [Transmitted CLOCK_ADDR [SEC_ADDR; b0; b1; 0x71] true status]) /\
      (exists b0 b1 status,
         trace (snd (configureTime peer (mkTime osc s m 23 false mer) w)) =
         trace w ++ [Transmitted CLOCK_ADDR [SEC_ADDR; b0; b1; 0x23] true status]).
Proof.
  intros osc s m mer.
  split; [reflexivity|]. split; [reflexivity|].
  intros peer w. split; do 3 eexists; rewrite configureTime_trace; reflexivity.
Qed.

(** *** C9 *)

(** C9: [saveInRTCRAM] returns a boolean: [true] exactly when the status
    the transport reports for its one write transaction is 0, [false]
    exactly when that status is nonzero; nothing is printed and nothing
    else is sent. *)
Theorem saveInRTCRAM_reports_status :
  forall (peer : Peer) (initAddr data : Z) (w : Wire),
    let addr := to_byte (getSafeRamAddr (to_byte initAddr)) in
    let status := to_byte (ack peer (trace w) CLOCK_ADDR [addr; to_byte data] true) in
    let r := saveInRTCRAM peer initAddr data w in
    (fst r = true <-> status = 0) /\
    (fst r = false <-> status <> 0) /\
    trace (snd r) =
      trace w ++ [Transmitted CLOCK_ADDR [addr; to_byte data] true status] /\
    serialOut (snd r) = serialOut w /\
    rxBuffer (snd r) = rxBuffer w.
Proof.
  intros peer initAddr data w addr status r.
  subst r. rewrite saveInRTCRAM_run. fold addr. fold status.
  cbn [fst snd trace rxBuffer serialOut].
  split; [apply Z.eqb_eq|]. split; [apply Z.eqb_neq|].
  repeat split.
Qed.

(** The byte offsets the mapper sends past the window are exactly those
    congruent to 56 modulo 57. *)
Lemma getSafeRamAddr_outside_iff (addr : Z) :
  0 <= addr <= 255 ->
  (RTC_RAM_UPPER < getSafeRamAddr addr <-> addr mod 57 = 56).
Proof.
  intros Ha. unfold getSafeRamAddr, RTC_RAM_LOWER, RTC_RAM_UPPER.
  rewrite Z.rem_mod_nonneg by lia.
  pose proof (Z.mod_pos_bound addr 57). lia.
Qed.

(** *** The readers on any bus *)

(** [readTime] run on any bus.  When the addressing transaction is
    acknowledged it requests three bytes and decodes what arrives; when
    it is not, it stops after the addressing transaction. *)
Lemma readTime_run (peer : Peer) (timeOut : Time) (w : Wire) :
  let status := to_byte (ack peer (trace w) CLOCK_ADDR [SEC_ADDR] false) in
  let sent := trace w ++ [Transmitted CLOCK_ADDR [SEC_ADDR] false status] in
  let bytes := map to_byte (reply peer sent CLOCK_ADDR 3 true) in
  readTime peer timeOut w =
  if status =? 0 then
    (readTime_loop bytes 0 timeOut,
     mkWire CLOCK_ADDR [] []
       (sent ++ [Requested CLOCK_ADDR 3 true bytes]) (serialOut w))
  else
    (timeOut, mkWire CLOCK_ADDR [] (rxBuffer w) sent (serialOut w)).
Proof.
  unfold readTime, bind, Wire_beginTransmission, Wire_write,
    Wire_endTransmission, Wire_requestFrom, readTime_drain,
    busStatus, busReply, ret.
  cbn [fst snd trace txAddress txBuffer rxBuffer serialOut app].
  change (to_byte CLOCK_ADDR) with CLOCK_ADDR.
  change (to_byte SEC_ADDR) with SEC_ADDR.
  destruct (_ =? 0); reflexivity.
Qed.

(** [readDate] run on any bus, likewise with four bytes. *)
Lemma readDate_run (peer : Peer) (dateOut : Date) (w : Wire) :
  let status := to_byte (ack peer (trace w) CLOCK_ADDR [DAY_ADDR] false) in
  let sent := trace w ++ [Transmitted CLOCK_ADDR [DAY_ADDR] false status] in
  let bytes := map to_byte (reply peer sent CLOCK_ADDR 4 true) in
  readDate peer dateOut w =
  if status =? 0 then
    (readDate_loop bytes 0 dateOut,
     mkWire CLOCK_ADDR [] []
       (sent ++ [Requested CLOCK_ADDR 4 true bytes]) (serialOut w))
  else
    (dateOut, mkWire CLOCK_ADDR [] (rxBuffer w) sent (serialOut w)).
Proof.
  unfold readDate, bind, Wire_beginTransmission, Wire_write,
    Wire_endTransmission, Wire_requestFrom, readDate_drain,
    busStatus, busReply, ret.
  cbn [fst snd trace txAddress txBuffer rxBuffer serialOut app].
  change (to_byte CLOCK_ADDR) with CLOCK_ADDR.
  change (to_byte DAY_ADDR) with DAY_ADDR.
  destruct (_ =? 0); reflexivity.
Qed.

(** *** C10 *)

(** C10: when the addressing transaction of [readTime] (respectively
    [readDate]) is answered with a nonzero status, the function returns
    with the caller's struct unchanged, and the only thing it has put on
    the bus is that addressing transaction: no bytes were requested and
    the receive buffer is untouched. *)
Theorem readers_stop_on_nack :
  forall (peer : Peer) (w : Wire) (timeOut : Time) (dateOut : Date),
    (forall status,
       status = to_byte (ack peer (trace w) CLOCK_ADDR [SEC_ADDR] false) ->
       status <> 0 ->
       fst (readTime peer timeOut w) = timeOut /\
       trace (snd (readTime peer timeOut w)) =
         trace w ++ [Transmitted CLOCK_ADDR [SEC_ADDR] false status] /\
       rxBuffer (snd (readTime peer timeOut w)) = rxBuffer w) /\
    (forall status,
       status = to_byte (ack peer (trace w) CLOCK_ADDR [DAY_ADDR] false) ->
       status <> 0 ->
       fst (readDate peer dateOut w) = dateOut /\
       trace (snd (readDate peer dateOut w)) =
         trace w ++ [Transmitted CLOCK_ADDR [DAY_ADDR] false status] /\
       rxBuffer (snd (readDate peer dateOut w)) = rxBuffer w).
Proof.
  intros peer w timeOut dateOut. split; intros status Hst Hnack.
  - rewrite readTime_run. rewrite <- Hst.
    apply Z.eqb_neq in Hnack. rewrite Hnack. repeat split.
  - rewrite readDate_run. rewrite <- Hst.
    apply Z.eqb_neq in Hnack. rewrite Hnack. repeat split.
Qed.

Lemma readers_stop_on_nack_witness :
  let peer := fixedPeer 2 [0x58; 0x37; 0x20; 0x97] in
  let timeOut := mkTime false 1 2 3 true PM in
  let dateOut := mkDate SUNDAY 4 5 6 in
  (2 <> 0 /\
   fst (readTime peer timeOut Wire_idle) = timeOut /\
   trace (snd (readTime peer timeOut Wire_idle)) =
     [Transmitted CLOCK_ADDR [SEC_ADDR] false 2]) /\
  (2 <> 0 /\
   fst (readDate peer dateOut Wire_idle) = dateOut /\
   trace (snd (readDate peer dateOut Wire_idle)) =
     [Transmitted CLOCK_ADDR [DAY_ADDR] false 2]).
Proof.
  intros peer timeOut dateOut.
  destruct (readers_stop_on_nack peer Wire_idle timeOut dateOut) as [Ht Hd].
  split.
  - split; [discriminate|].
    destruct (Ht 2) as (H1 & H2 & _); [reflexivity | discriminate |].
    split; [exact H1 | exact H2].
  - split; [discriminate|].
    destruct (Hd 2) as (H1 & H2 & _); [reflexivity | discriminate |].
    split; [exact H1 | exact H2].
Defined.

(** *** C8 *)

Lemma readDate_dow_valid (val : Z) : validDow (readDate_dow val).
Proof.
  unfold readDate_dow, validDow, MONDAY, TUESDAY, WEDNESDAY, THURSDAY,
    FRIDAY, SATURDAY, SUNDAY.
  destruct (Z.land val 7) as [|[[[?|?|]|[?|?|]|]|[[?|?|]|[?|?|]|]|]|?]; lia.
Qed.

(** Only the turn with the counter at 0 stores into [dow]. *)
Lemma readDate_step_dow (val i : Z) (d : Date) :
  validDow (dow d) -> validDow (dow (readDate_step val i d)).
Proof.
  intros Hd. unfold readDate_step.
  destruct i as [|[[?|?|]|[?|?|]|]|?]; simpl;
    try exact Hd; apply readDate_dow_valid.
Qed.

Lemma readDate_loop_dow (rx : list Z) :
  forall (i : Z) (d : Date),
    validDow (dow d) -> validDow (dow (readDate_loop rx i d)).
Proof.
  induction rx as [|b rest IH]; intros i d Hd; simpl.
  - exact Hd.
  - apply IH. apply readDate_step_dow. exact Hd.
Qed.

(** C8: whatever the raw day-of-week byte, the decoder's [switch] yields
    one of the seven enumerators; when the masked value is outside 1..7
    (the byte 0x00 included) it yields the fallback [MONDAY]; and after
    [readDate] has decoded a reply of at least one byte, [dow] holds a
    value from 1..7 whatever the struct held before. *)
Theorem readDate_dow_always_valid :
  (forall val, validDow (readDate_dow val)) /\
  (forall val, ~ (1 <= Z.land val 0x07 <= 7) -> readDate_dow val = MONDAY) /\
  readDate_dow 0x00 = MONDAY /\
  (forall (peer : Peer) (w : Wire) (dateOut : Date),
     to_byte (ack peer (trace w) CLOCK_ADDR [DAY_ADDR] false) = 0 ->
     reply peer (trace w ++ [Transmitted CLOCK_ADDR [DAY_ADDR] false 0])
       CLOCK_ADDR 4 true <> [] ->
     validDow (dow (fst (readDate peer dateOut w)))).
Proof.
  split; [exact readDate_dow_valid|].
  split; [|split; [reflexivity|]].
  - intros val Hout. unfold readDate_dow.
    remember (Z.land val 7) as k eqn:Hk. clear Hk.
    destruct k as [|[[[?|?|]|[?|?|]|]|[[?|?|]|[?|?|]|]|]|?];
      try reflexivity; exfalso; apply Hout; lia.
  - intros peer w dateOut Hack Hreply.
    rewrite readDate_run, Hack. simpl Z.eqb. cbv iota.
    destruct (reply peer _ CLOCK_ADDR 4 true) as [|b rest];
      [contradiction Hreply; reflexivity|].
    cbn [fst map readDate_loop].
    apply readDate_loop_dow. apply readDate_dow_valid.
Qed.

Lemma readDate_dow_always_valid_witness :
  let peer := fixedPeer 0 [0x00; 0x29; 0x10; 0x97] in
  let dateOut := mkDate 0 0 0 0 in
  ~ (1 <= Z.land 0x00 0x07 <= 7) /\
  readDate_dow 0x00 = MONDAY /\
  to_byte (ack peer (trace Wire_idle) CLOCK_ADDR [DAY_ADDR] false) = 0 /\
  reply peer (trace Wire_idle ++ [Transmitted CLOCK_ADDR [DAY_ADDR] false 0])
    CLOCK_ADDR 4 true <> [] /\
  validDow (dow (fst (readDate peer dateOut Wire_idle))).
Proof.
  intros peer dateOut.
  destruct readDate_dow_always_valid as (_ & Hfallback & _ & Hread).
  assert (Hout : ~ (1 <= Z.land 0x00 0x07 <= 7)) by (simpl; lia).
  assert (Hack : to_byte (ack peer (trace Wire_idle) CLOCK_ADDR [DAY_ADDR] false) = 0)
    by reflexivity.
  assert (Hreply :
    reply peer (trace Wire_idle ++ [Transmitted CLOCK_ADDR [DAY_ADDR] false 0])
      CLOCK_ADDR 4 true <> []) by (simpl; discriminate).
  split; [exact Hout|].
  split; [exact (Hfallback 0x00 Hout)|].
  split; [exact Hack|].
  split; [exact Hreply|].
  exact (Hread peer Wire_idle dateOut Hack Hreply).
Defined.

(** *** The decoders, turn by turn *)

Lemma readTime_loop_three (b0 b1 b2 : Z) (timeOut : Time) :
  readTime_loop [b0; b1; b2] 0 timeOut =
  readTime_step (to_byte b2) 2
    (readTime_step (to_byte b1) 1 (readTime_step (to_byte b0) 0 timeOut)).
Proof. reflexivity. Qed.

Lemma readDate_loop_four (b0 b1 b2 b3 : Z) (dateOut : Date) :
  readDate_loop [b0; b1; b2; b3] 0 dateOut =
  readDate_step (to_byte b3) 3
    (readDate_step (to_byte b2) 2
       (readDate_step (to_byte b1) 1 (readDate_step (to_byte b0) 0 dateOut))).
Proof. reflexivity. Qed.

Lemma readTime_step_seconds (val : Z) (timeOut : Time) :
  readTime_step val 0 timeOut =
  set_second (bcdValue val 0x07)
    (set_disableOsc (to_bool (Z.land (Z.shiftr val 4) 0x08)) timeOut).
Proof. reflexivity. Qed.

Lemma readTime_step_minutes (val : Z) (timeOut : Time) :
  readTime_step val 1 timeOut = set_minut (bcdValue val 0x07) timeOut.
Proof. reflexivity. Qed.

Lemma readTime_step_hours (val : Z) (timeOut : Time) :
  readTime_step val 2 timeOut =
  if to_bool (Z.land val (Z.shiftl 1 6)) then
    set_hour (bcdValue val 0x01)
      (set_meridianIndicator
         (if to_bool (Z.land val (Z.shiftl 1 5)) then PM else AM)
         (set_is12Hour true timeOut))
  else
    set_hour (bcdValue val 0x03)
      (set_meridianIndicator NONE (set_is12Hour false timeOut)).
Proof.
  unfold readTime_step. cbn [Z.ltb Z.eqb Z.compare Pos.compare Pos.compare_cont Pos.eqb].
  destruct (to_bool (Z.land val (Z.shiftl 1 6))); reflexivity.
Qed.

(** *** Register by register *)

Lemma to_byte_idem (z : Z) : to_byte (to_byte z) = to_byte z.
Proof. apply to_byte_small, to_byte_range. Qed.

Lemma bcd_field_roundtrip (lo hi tensMask : Z) (n : nat) :
  range_all (bcd_field_ok lo hi tensMask) lo n = true ->
  forall v, lo <= v < lo + Z.of_nat n ->
    bcdValue (to_byte (cvtDec2Bcd (clamp v lo hi))) tensMask = v.
Proof.
  intros Hall v Hv.
  apply Z.eqb_eq. exact (range_all_spec _ _ _ Hall v Hv).
Qed.

Lemma seconds_roundtrip (t : Time) :
  0 <= second t <= 59 ->
  bcdValue (secondsRegister t) 0x07 = second t /\
  to_bool (Z.land (Z.shiftr (secondsRegister t) 4) 0x08) = disableOsc t.
Proof.
  destruct t as [osc s m h b mer]. cbn [second disableOsc]. intros Hs.
  change (secondsRegister (mkTime osc s m h b mer))
    with (secondsRegister (mkTime osc s 0 0 false NONE)).
  assert (Hall : range_all (seconds_ok osc) 0 60 = true)
    by (destruct osc; vm_compute; reflexivity).
  pose proof (range_all_spec _ _ _ Hall s ltac:(lia)) as Hok.
  unfold seconds_ok in Hok.
  apply andb_true_iff in Hok as [Hv Hc].
  split; [apply Z.eqb_eq; exact Hv | apply Bool.eqb_prop; exact Hc].
Qed.

Lemma minutes_roundtrip (t : Time) :
  0 <= minut t <= 59 -> bcdValue (minutesRegister t) 0x07 = minut t.
Proof.
  intros Hm. unfold minutesRegister.
  apply (bcd_field_roundtrip 0 59 7 60); [vm_compute; reflexivity | lia].
Qed.

Lemma hours24_roundtrip (t : Time) :
  is12Hour t = false -> 0 <= hour t <= 23 ->
  to_bool (Z.land (hoursRegister t) (Z.shiftl 1 6)) = false /\
  bcdValue (hoursRegister t) 0x03 = hour t.
Proof.
  destruct t as [osc s m h b mer]. cbn [is12Hour hour]. intros -> Hh.
  change (hoursRegister (mkTime osc s m h false mer))
    with (hoursRegister (mkTime false 0 0 h false NONE)).
  assert (Hall : range_all hours24_ok 0 24 = true) by (vm_compute; reflexivity).
  pose proof (range_all_spec _ _ _ Hall h ltac:(lia)) as Hok.
  unfold hours24_ok in Hok.
  apply andb_true_iff in Hok as [Hmode Hv].
  split; [apply negb_true_iff; exact Hmode | apply Z.eqb_eq; exact Hv].
Qed.

Lemma hours12_roundtrip (t : Time) (pm : bool) :
  is12Hour t = true -> 1 <= hour t <= 12 ->
  meridianIndicator t = (if pm then PM else AM) ->
  to_bool (Z.land (hoursRegister t) (Z.shiftl 1 6)) = true /\
  to_bool (Z.land (hoursRegister t) (Z.shiftl 1 5)) = pm /\
  bcdValue (hoursRegister t) 0x01 = hour t.
Proof.
  destruct t as [osc s m h b mer]. cbn [is12Hour hour meridianIndicator].
  intros -> Hh ->.
  change (hoursRegister (mkTime osc s m h true (if pm then PM else AM)))
    with (hoursRegister (mkTime false 0 0 h true (if pm then PM else AM))).
  assert (Hall : range_all (hours12_ok pm) 1 12 = true)
    by (destruct pm; vm_compute; reflexivity).
  pose proof (range_all_spec _ _ _ Hall h ltac:(lia)) as Hok.
  unfold hours12_ok in Hok.
  apply andb_true_iff in Hok as [Hok Hv].
  apply andb_true_iff in Hok as [Hmode Hpm].
  split; [exact Hmode|].
  split; [apply Bool.eqb_prop; exact Hpm | apply Z.eqb_eq; exact Hv].
Qed.

Lemma dow_roundtrip (v : Z) :
  1 <= v <= 7 -> readDate_dow (to_byte (cvtDec2Bcd (clamp v 1 7))) = v.
Proof.
  intros Hv.
  assert (Hall : range_all dow_ok 1 7 = true) by (vm_compute; reflexivity).
  apply Z.eqb_eq. exact (range_all_spec _ _ _ Hall v ltac:(lia)).
Qed.

(** *** Decoding what was encoded *)

(** The loop of [readTime] run on the three register images of a valid
    time value rebuilds that value, whatever the struct held before. *)
Lemma readTime_loop_timeRegisters (t timeOut : Time) :
  timeFieldsInRange t -> modeInvariant t ->
  readTime_loop (timeRegisters t) 0 timeOut = t.
Proof.
  intros [Hs Hm] [H24 H12].
  unfold timeRegisters. rewrite readTime_loop_three.
  rewrite secondsRegister_byte, minutesRegister_byte, hoursRegister_byte.
  rewrite readTime_step_seconds, readTime_step_minutes, readTime_step_hours.
  destruct (seconds_roundtrip t Hs) as [Hsec Hosc].
  rewrite Hsec, Hosc, (minutes_roundtrip t Hm).
  destruct (is12Hour t) eqn:Hmode.
  - destruct (H12 eq_refl) as [Hh Hmer].
    assert (Hpm : exists pm : bool, meridianIndicator t = if pm then PM else AM).
    { destruct Hmer as [-> | ->]; [exists false | exists true]; reflexivity. }
    destruct Hpm as [pm Hpm].
    destruct (hours12_roundtrip t pm Hmode Hh Hpm) as (Hbit6 & Hbit5 & Hhour).
    rewrite Hbit6, Hbit5, Hhour.
    destruct t as [osc s m h b mer]. cbn in *. subst b mer.
    destruct pm; reflexivity.
  - destruct (H24 eq_refl) as [Hmer Hh].
    destruct (hours24_roundtrip t Hmode Hh) as [Hbit6 Hhour].
    rewrite Hbit6, Hhour.
    destruct t as [osc s m h b mer]. cbn in *. subst b mer.
    reflexivity.
Qed.

(** The loop of [readDate] run on the four register images of a valid
    date value rebuilds that value. *)
Lemma readDate_loop_dateRegisters (d dateOut : Date) :
  validDate d -> readDate_loop (dateRegisters d) 0 dateOut = d.
Proof.
  intros (Hdow & Hdate & Hmonth & Hyear).
  unfold dateRegisters. rewrite readDate_loop_four.
  rewrite !to_byte_idem.
  unfold readDate_step. cbv iota.
  fold (bcdValue (to_byte (cvtDec2Bcd (clamp (date d) 1 31))) 0x03).
  fold (bcdValue (to_byte (cvtDec2Bcd (clamp (month d) 1 12))) 0x01).
  fold (bcdValue (to_byte (cvtDec2Bcd (clamp (year d) 0 99))) 0x0F).
  rewrite (dow_roundtrip (dow d) Hdow).
  rewrite (bcd_field_roundtrip 1 31 3 31) by (try (vm_compute; reflexivity); lia).
  rewrite (bcd_field_roundtrip 1 12 1 12) by (try (vm_compute; reflexivity); lia).
  rewrite (bcd_field_roundtrip 0 99 15 100) by (try (vm_compute; reflexivity); lia).
  destruct d; reflexivity.
Qed.

(** *** C4 *)

(** C4: for every time value whose seconds and minutes are in [0, 59]
    and which satisfies the mode invariant, [configureTime] transmits the
    word address followed by three register bytes, and [readTime], when
    its addressing transaction is acknowledged and those three bytes are
    delivered, returns exactly that time value: oscillator flag, seconds,
    minutes, hour, mode and meridian. *)
Theorem time_roundtrip :
  forall (peer : Peer) (w0 w : Wire) (t timeOut : Time),
    timeFieldsInRange t ->
    modeInvariant t ->
    to_byte (ack peer (trace w) CLOCK_ADDR [SEC_ADDR] false) = 0 ->
    reply peer (trace w ++ [Transmitted CLOCK_ADDR [SEC_ADDR] false 0])
      CLOCK_ADDR 3 true = timeRegisters t ->
    (exists status,
       trace (snd (configureTime peer t w0)) =
       trace w0 ++
       [Transmitted CLOCK_ADDR (SEC_ADDR :: timeRegisters t) true status]) /\
    fst (readTime peer timeOut w) = t.
Proof.
  intros peer w0 w t timeOut Hrange Hmode Hack Hreply. split.
  - eexists. apply configureTime_trace.
  - rewrite readTime_run, Hack, Hreply.
    simpl Z.eqb. cbv iota. cbn [fst].
    unfold timeRegisters. cbn [map].
    rewrite secondsRegister_byte, minutesRegister_byte, hoursRegister_byte.
    apply (readTime_loop_timeRegisters t timeOut Hrange Hmode).
Qed.

Lemma time_roundtrip_witness :
  let t := mkTime false 45 30 11 true PM in
  let peer := fixedPeer 0 [0x45; 0x30; 0x71] in
  timeFieldsInRange t /\ modeInvariant t /\
  timeRegisters t = [0x45; 0x30; 0x71] /\
  fst (readTime peer (mkTime true 0 0 0 false NONE) Wire_idle) = t.
Proof.
  intros t peer.
  assert (Hrange : timeFieldsInRange t) by (unfold timeFieldsInRange; simpl; lia).
  assert (Hmode : modeInvariant t).
  { split; simpl; intros H; [discriminate H|].
    split; [lia | right; reflexivity]. }
  split; [exact Hrange|]. split; [exact Hmode|]. split; [reflexivity|].
  exact (proj2 (time_roundtrip peer Wire_idle Wire_idle t
                  (mkTime true 0 0 0 false NONE)
                  Hrange Hmode eq_refl eq_refl)).
Defined.

(** *** C5 *)

(** C5: for every date value with day of week in 1..7, day of month in
    [1, 31], month in [1, 12] and year in [0, 99], [configureDate]
    transmits the word address followed by four register bytes, and
    [readDate], when its addressing transaction is acknowledged and those
    four bytes are delivered, returns exactly that date value. *)
Theorem date_roundtrip :
  forall (peer : Peer) (w0 w : Wire) (d dateOut : Date),
    validDate d ->
    to_byte (ack peer (trace w) CLOCK_ADDR [DAY_ADDR] false) = 0 ->
    reply peer (trace w ++ [Transmitted CLOCK_ADDR [DAY_ADDR] false 0])
      CLOCK_ADDR 4 true = dateRegisters d ->
    (exists status,
       trace (snd (configureDate peer d w0)) =
       trace w0 ++
       [Transmitted CLOCK_ADDR (DAY_ADDR :: dateRegisters d) true status]) /\
    fst (readDate peer dateOut w) = d.
Proof.
  intros peer w0 w d dateOut Hvalid Hack Hreply. split.
  - eexists. apply configureDate_trace.
  - rewrite readDate_run, Hack, Hreply.
    simpl Z.eqb. cbv iota. cbn [fst].
    unfold dateRegisters. cbn [map]. rewrite !to_byte_idem.
    apply (readDate_loop_dateRegisters d dateOut Hvalid).
Qed.

Lemma date_roundtrip_witness :
  let d := confDate in
  let peer := fixedPeer 0 [0x01; 0x29; 0x10; 0x97] in
  validDate d /\
  dateRegisters d = [0x01; 0x29; 0x10; 0x97] /\
  fst (readDate peer (mkDate 0 0 0 0) Wire_idle) = d.
Proof.
  intros d peer.
  assert (Hvalid : validDate d) by (unfold validDate, d, confDate, MONDAY; simpl; lia).
  split; [exact Hvalid|]. split; [reflexivity|].
  exact (proj2 (date_roundtrip peer Wire_idle Wire_idle d (mkDate 0 0 0 0)
                  Hvalid eq_refl eq_refl)).
Defined.

(** *** C6 *)

(** C6: the time value with seconds 58, minutes 37, hour 20, oscillator
    disabled, 24-hour mode is encoded as the three register bytes 0xD8,
    0x37, 0x20 (whatever meridian the struct carries, as the 24-hour
    encoding does not look at it), which is what [configureTime]
    transmits after the word address; and [readTime], when its addressing
    transaction is acknowledged and those three bytes are delivered,
    returns that value, with the meridian a 24-hour value has. *)
Theorem time_scenario :
  forall (peer : Peer) (w0 w : Wire) (timeOut : Time) (mer : amOrPm),
    to_byte (ack peer (trace w) CLOCK_ADDR [SEC_ADDR] false) = 0 ->
    reply peer (trace w ++ [Transmitted CLOCK_ADDR [SEC_ADDR] false 0])
      CLOCK_ADDR 3 true = [0xD8; 0x37; 0x20] ->
    timeRegisters (mkTime true 58 37 20 false mer) = [0xD8; 0x37; 0x20] /\
    (exists status,
       trace (snd (configureTime peer (mkTime true 58 37 20 false mer) w0)) =
       trace w0 ++
       [Transmitted CLOCK_ADDR [SEC_ADDR; 0xD8; 0x37; 0x20] true status]) /\
    fst (readTime peer timeOut w) = mkTime true 58 37 20 false NONE.
Proof.
  intros peer w0 w timeOut mer Hack Hreply.
  split; [reflexivity|]. split.
  - eexists. rewrite configureTime_trace. reflexivity.
  - rewrite readTime_run, Hack, Hreply. reflexivity.
Qed.

Lemma time_scenario_witness :
  let peer := fixedPeer 0 [0xD8; 0x37; 0x20] in
  timeRegisters confTime = [0xD8; 0x37; 0x20] /\
  fst (readTime peer (mkTime false 0 0 0 true PM) Wire_idle) =
    mkTime true 58 37 20 false NONE.
Proof.
  intros peer.
  destruct (time_scenario peer Wire_idle Wire_idle
              (mkTime false 0 0 0 true PM) AM eq_refl eq_refl)
    as (Hbytes & _ & Hread).
  split; [exact Hbytes | exact Hread].
Defined.

(** *** The encoders are lossy outside the valid values *)

(** A second count above 59 is clamped on the way out: it comes back
    as 59. *)
Example readTime_loop_clamped_second :
  readTime_loop (timeRegisters (mkTime false 75 0 0 false NONE)) 0
    (mkTime false 0 0 0 false NONE) =
  mkTime false 59 0 0 false NONE.
Proof. reflexivity. Qed.

(** The value [setup()] configures is a 24-hour value that carries [AM]:
    it is read back with [NONE]. *)
Example readTime_loop_confTime :
  readTime_loop (timeRegisters confTime) 0 confTime =
  mkTime true 58 37 20 false NONE.
Proof. reflexivity. Qed.

(** * Further properties of the sketch *)

(** ** [clamp] *)

(** X1: for a non-empty range [clamp] saturates: the result lies in the
    range, a value in the range is returned as it is, a value below it
    gives the lower end and a value above it the upper end, and clamping
    twice is clamping once. *)
Theorem clamp_saturates :
  forall val minVal maxVal,
    minVal <= maxVal ->
    minVal <= clamp val minVal maxVal <= maxVal /\
    (minVal <= val <= maxVal -> clamp val minVal maxVal = val) /\
    (val < minVal -> clamp val minVal maxVal = minVal) /\
    (maxVal < val -> clamp val minVal maxVal = maxVal) /\
    clamp (clamp val minVal maxVal) minVal maxVal = clamp val minVal maxVal.
Proof.
  intros val lo hi Hrange. unfold clamp.
  rewrite !Z.gtb_ltb.
  destruct (Z.ltb_spec val lo) as [Hlt|Hge].
  - destruct (Z.ltb_spec lo lo); [lia|].
    destruct (Z.ltb_spec hi lo); [lia|].
    repeat split; try lia.
  - destruct (Z.ltb_spec hi val) as [Hgt|Hle].
    + destruct (Z.ltb_spec hi lo); [lia|].
      destruct (Z.ltb_spec hi hi); [lia|].
      repeat split; try lia.
    + destruct (Z.ltb_spec val lo); [lia|].
      destruct (Z.ltb_spec hi val); [lia|].
      repeat split; try lia.
Qed.

Lemma clamp_saturates_witness :
  0 <= 59 /\ clamp 65 0 59 = 59 /\ clamp (-1) 0 59 = 0 /\ clamp 30 0 59 = 30.
Proof.
  destruct (clamp_saturates 65 0 59 ltac:(lia)) as (_ & _ & _ & Habove & _).
  destruct (clamp_saturates (-1) 0 59 ltac:(lia)) as (_ & _ & Hbelow & _ & _).
  destruct (clamp_saturates 30 0 59 ltac:(lia)) as (_ & Hin & _ & _ & _).
  split; [lia|]. split; [apply Habove; lia|].
  split; [apply Hbelow; lia | apply Hin; lia].
Defined.

Lemma clamp_range (val minVal maxVal : Z) :
  minVal <= maxVal -> minVal <= clamp val minVal maxVal <= maxVal.
Proof.
  intros Hrange. unfold clamp. rewrite Z.gtb_ltb.
  destruct (Z.ltb_spec val minVal); [lia|].
  destruct (Z.ltb_spec maxVal val); lia.
Qed.

Lemma clamp_idem (val minVal maxVal : Z) :
  minVal <= maxVal ->
  clamp (clamp val minVal maxVal) minVal maxVal = clamp val minVal maxVal.
Proof.
  intros Hrange. pose proof (clamp_range val minVal maxVal Hrange) as Hc.
  unfold clamp at 1. rewrite Z.gtb_ltb.
  destruct (Z.ltb_spec (clamp val minVal maxVal) minVal); [lia|].
  destruct (Z.ltb_spec maxVal (clamp val minVal maxVal)); [lia|].
  reflexivity.
Qed.

(** ** [cvtDec2Bcd] *)

(** X2: for a number in [0, 99] the byte [cvtDec2Bcd] returns has the
    tens digit in its high nibble and the units digit in its low nibble,
    and two such numbers with the same byte are the same number. *)
Theorem cvtDec2Bcd_nibbles :
  forall v,
    0 <= v <= 99 ->
    Z.shiftr (cvtDec2Bcd v) 4 = v / 10 /\
    Z.land (cvtDec2Bcd v) 0x0F = v mod 10 /\
    (forall v', 0 <= v' <= 99 -> cvtDec2Bcd v = cvtDec2Bcd v' -> v = v').
Proof.
  intros v Hv.
  rewrite (cvtDec2Bcd_digits v Hv).
  assert (Hones : 0 <= v mod 10 < 10) by (apply Z.mod_pos_bound; lia).
  split; [|split].
  - rewrite Z.shiftr_div_pow2 by lia. change (2 ^ 4) with 16.
    symmetry. apply (Z.div_unique _ 16 _ (v mod 10)); lia.
  - change 15 with (Z.ones 4). rewrite Z.land_ones by lia.
    change (2 ^ 4) with 16.
    symmetry. apply (Z.mod_unique _ 16 (v / 10)); lia.
  - intros v' Hv' Heq. rewrite (cvtDec2Bcd_digits v' Hv') in Heq.
    assert (Hones' : 0 <= v' mod 10 < 10) by (apply Z.mod_pos_bound; lia).
    rewrite (Z.div_mod v 10), (Z.div_mod v' 10) by lia. lia.
Qed.

Lemma cvtDec2Bcd_nibbles_witness :
  0 <= 37 <= 99 /\
  Z.shiftr (cvtDec2Bcd 37) 4 = 3 /\ Z.land (cvtDec2Bcd 37) 0x0F = 7.
Proof.
  destruct (cvtDec2Bcd_nibbles 37 ltac:(lia)) as (Hhi & Hlo & _).
  split; [lia|]. split; [exact Hhi | exact Hlo].
Defined.

(** ** Encoding any value, then decoding it *)

Lemma timeRegisters_clampedTime (t : Time) :
  timeRegisters (clampedTime t) = timeRegisters t.
Proof.
  destruct t as [osc s m h b mer].
  unfold timeRegisters, clampedTime, secondsRegister, minutesRegister,
    hoursRegister.
  cbn [disableOsc second minut hour is12Hour meridianIndicator].
  rewrite !(clamp_idem _ 0 59) by lia.
  destruct b.
  - rewrite (clamp_idem h 1 12) by lia. destruct mer; reflexivity.
  - rewrite (clamp_idem h 0 23) by lia. reflexivity.
Qed.

Lemma clampedTime_valid (t : Time) :
  timeFieldsInRange (clampedTime t) /\ modeInvariant (clampedTime t).
Proof.
  destruct t as [osc s m h b mer].
  unfold timeFieldsInRange, modeInvariant, clampedTime.
  cbn [disableOsc second minut hour is12Hour meridianIndicator].
  pose proof (clamp_range s 0 59 ltac:(lia)).
  pose proof (clamp_range m 0 59 ltac:(lia)).
  pose proof (clamp_range h 1 12 ltac:(lia)).
  pose proof (clamp_range h 0 23 ltac:(lia)).
  split; [split; assumption|].
  split; intros Hb; subst b.
  - split; [reflexivity | assumption].
  - split; [assumption|]. destruct mer; auto.
Qed.

Lemma readTime_loop_clampedTime (t timeOut : Time) :
  readTime_loop (timeRegisters t) 0 timeOut = clampedTime t.
Proof.
  rewrite <- timeRegisters_clampedTime.
  destruct (clampedTime_valid t) as [Hrange Hmode].
  apply readTime_loop_timeRegisters; assumption.
Qed.

Lemma dateRegisters_clampedDate (d : Date) :
  dateRegisters (clampedDate d) = dateRegisters d.
Proof.
  destruct d as [w dd m y]. unfold dateRegisters, clampedDate.
  cbn [dow date month year].
  rewrite (clamp_idem w 1 7), (clamp_idem dd 1 31), (clamp_idem m 1 12),
    (clamp_idem y 0 99) by lia.
  reflexivity.
Qed.

Lemma clampedDate_valid (d : Date) : validDate (clampedDate d).
Proof.
  destruct d as [w dd m y]. unfold validDate, clampedDate.
  cbn [dow date month year].
  pose proof (clamp_range w 1 7 ltac:(lia)).
  pose proof (clamp_range dd 1 31 ltac:(lia)).
  pose proof (clamp_range m 1 12 ltac:(lia)).
  pose proof (clamp_range y 0 99 ltac:(lia)).
  repeat split; lia.
Qed.

Lemma readDate_loop_clampedDate (d dateOut : Date) :
  readDate_loop (dateRegisters d) 0 dateOut = clampedDate d.
Proof.
  rewrite <- dateRegisters_clampedDate.
  apply readDate_loop_dateRegisters. apply clampedDate_valid.
Qed.

(** X3: whatever the fields of a time value hold, [readTime] fed the
    three bytes [configureTime] queues for it returns the value with its
    seconds and minutes clamped to [0, 59], its hour clamped to [1, 12]
    or [0, 23] by mode, the oscillator flag and the mode as they were,
    and as meridian PM only for a 12-hour PM value, AM for any other
    12-hour value, none for a 24-hour value. *)
Theorem time_roundtrip_clamped :
  forall (peer : Peer) (w : Wire) (t timeOut : Time),
    to_byte (ack peer (trace w) CLOCK_ADDR [SEC_ADDR] false) = 0 ->
    reply peer (trace w ++ [Transmitted CLOCK_ADDR [SEC_ADDR] false 0])
      CLOCK_ADDR 3 true = timeRegisters t ->
    fst (readTime peer timeOut w) = clampedTime t.
Proof.
  intros peer w t timeOut Hack Hreply.
  rewrite readTime_run, Hack, Hreply.
  simpl Z.eqb. cbv iota. cbn [fst].
  unfold timeRegisters. cbn [map].
  rewrite secondsRegister_byte, minutesRegister_byte, hoursRegister_byte.
  apply (readTime_loop_clampedTime t timeOut).
Qed.

Lemma time_roundtrip_clamped_witness :
  let t := mkTime true 200 61 0 true NONE in
  let peer := fixedPeer 0 [0xD9; 0x59; 0x41] in
  timeRegisters t = [0xD9; 0x59; 0x41] /\
  fst (readTime peer confTime Wire_idle) = mkTime true 59 59 1 true AM.
Proof.
  intros t peer. split; [reflexivity|].
  exact (time_roundtrip_clamped peer Wire_idle t confTime eq_refl eq_refl).
Defined.

(** X4: whatever the fields of a date value hold, [readDate] fed the
    four bytes [configureDate] queues for it returns the value with the
    day of week clamped to [1, 7], the day of month to [1, 31], the month
    to [1, 12] and the year to [0, 99]. *)
Theorem date_roundtrip_clamped :
  forall (peer : Peer) (w : Wire) (d dateOut : Date),
    to_byte (ack peer (trace w) CLOCK_ADDR [DAY_ADDR] false) = 0 ->
    reply peer (trace w ++ [Transmitted CLOCK_ADDR [DAY_ADDR] false 0])
      CLOCK_ADDR 4 true = dateRegisters d ->
    fst (readDate peer dateOut w) = clampedDate d.
Proof.
  intros peer w d dateOut Hack Hreply.
  rewrite readDate_run, Hack, Hreply.
  simpl Z.eqb. cbv iota. cbn [fst].
  unfold dateRegisters. cbn [map]. rewrite !to_byte_idem.
  apply (readDate_loop_clampedDate d dateOut).
Qed.

Lemma date_roundtrip_clamped_witness :
  let d := mkDate 0 40 13 150 in
  let peer := fixedPeer 0 [0x01; 0x31; 0x12; 0x99] in
  dateRegisters d = [0x01; 0x31; 0x12; 0x99] /\
  fst (readDate peer confDate Wire_idle) = mkDate MONDAY 31 12 99.
Proof.
  intros d peer. split; [reflexivity|].
  exact (date_roundtrip_clamped peer Wire_idle d confDate eq_refl eq_refl).
Defined.

(** X5: a value that was encoded and decoded encodes to the same bytes
    again, for a time value and for a date value: what the clamps and the
    meridian bit lose is lost at the first encoding only. *)
Theorem registers_stable_under_decoding :
  forall (t timeOut : Time) (d dateOut : Date),
    timeRegisters (readTime_loop (timeRegisters t) 0 timeOut) = timeRegisters t /\
    dateRegisters (readDate_loop (dateRegisters d) 0 dateOut) = dateRegisters d.
Proof.
  intros t timeOut d dateOut. split.
  - rewrite readTime_loop_clampedTime. apply timeRegisters_clampedTime.
  - rewrite readDate_loop_clampedDate. apply dateRegisters_clampedDate.
Qed.

(** ** Replies of any length *)

Lemma readTime_loop_cons3 (b0 b1 b2 : Z) (rest : list Z) (timeOut : Time) :
  readTime_loop (b0 :: b1 :: b2 :: rest) 0 timeOut =
  readTime_loop rest 3 (readTime_loop [b0; b1; b2] 0 timeOut).
Proof. reflexivity. Qed.

Lemma readDate_loop_cons4 (b0 b1 b2 b3 : Z) (rest : list Z) (dateOut : Date) :
  readDate_loop (b0 :: b1 :: b2 :: b3 :: rest) 0 dateOut =
  readDate_loop rest 4 (readDate_loop [b0; b1; b2; b3] 0 dateOut).
Proof. reflexivity. Qed.









(** X8: when [readTime] is acknowledged but fewer than three bytes
    arrive, the fields of the missing registers keep what the caller's
    struct held: hour, mode and meridian with fewer than three bytes,
    also the minutes with fewer than two, and every field with none. *)
Theorem readTime_short_reply :
  forall (peer : Peer) (w : Wire) (timeOut : Time) (bytes : list Z),
    to_byte (ack peer (trace w) CLOCK_ADDR [SEC_ADDR] false) = 0 ->
    reply peer (trace w ++ [Transmitted CLOCK_ADDR [SEC_ADDR] false 0])
      CLOCK_ADDR 3 true = bytes ->
    (List.length bytes < 3)%nat ->
    let r := fst (readTime peer timeOut w) in
    hour r = hour timeOut /\
    is12Hour r = is12Hour timeOut /\
    meridianIndicator r = meridianIndicator timeOut /\
    ((List.length bytes < 2)%nat -> minut r = minut timeOut) /\
    (bytes = [] -> r = timeOut).
Proof.
  intros peer w timeOut bytes Hack Hreply Hlen r. subst r.
  rewrite readTime_run, Hack, Hreply.
  simpl Z.eqb. cbv iota. cbn [fst].
  destruct bytes as [|b0 [|b1 [|b2 rest]]]; cbn [List.length] in *; try lia.
  - repeat split.
  - repeat split. intros H. discriminate H.
  - repeat split; intros H; [lia | discriminate H].
Qed.

Lemma readTime_short_reply_witness :
  let peer := fixedPeer 0 [0xD8] in
  let timeOut := mkTime false 1 2 3 true PM in
  let r := fst (readTime peer timeOut Wire_idle) in
  (1 < 3)%nat /\ (1 < 2)%nat /\
  hour r = 3 /\ is12Hour r = true /\ meridianIndicator r = PM /\ minut r = 2.
Proof.
  intros peer timeOut r.
  assert (Hlen : (List.length [0xD8] < 3)%nat) by (simpl; lia).
  assert (Hlen2 : (List.length [0xD8] < 2)%nat) by (simpl; lia).
  destruct (readTime_short_reply peer Wire_idle timeOut [0xD8]
              eq_refl eq_refl Hlen) as (Hh & Hmode & Hmer & Hmin & _).
  split; [lia|]. split; [lia|].
  split; [exact Hh|]. split; [exact Hmode|]. split; [exact Hmer|].
  exact (Hmin Hlen2).
Defined.

(** X9: when [readDate] is acknowledged but fewer than four bytes
    arrive, the fields of the missing registers keep what the caller's
    struct held: the year with fewer than four bytes, also the month with
    fewer than three, also the day of month with fewer than two, and
    every field with none. *)
Theorem readDate_short_reply :
  forall (peer : Peer) (w : Wire) (dateOut : Date) (bytes : list Z),
    to_byte (ack peer (trace w) CLOCK_ADDR [DAY_ADDR] false) = 0 ->
    reply peer (trace w ++ [Transmitted CLOCK_ADDR [DAY_ADDR] false 0])
      CLOCK_ADDR 4 true = bytes ->
    (List.length bytes < 4)%nat ->
    let r := fst (readDate peer dateOut w) in
    year r = year dateOut /\
    ((List.length bytes < 3)%nat -> month r = month dateOut) /\
    ((List.length bytes < 2)%nat -> date r = date dateOut) /\
    (bytes = [] -> r = dateOut).
Proof.
  intros peer w dateOut bytes Hack Hreply Hlen r. subst r.
  rewrite readDate_run, Hack, Hreply.
  simpl Z.eqb. cbv iota. cbn [fst].
  destruct bytes as [|b0 [|b1 [|b2 [|b3 rest]]]]; cbn [List.length] in *;
    try lia.
  - repeat split.
  - repeat split. intros H. discriminate H.
  - repeat split; intros H; [lia | discriminate H].
  - repeat split; intros H; [lia | lia | discriminate H].
Qed.

Lemma readDate_short_reply_witness :
  let peer := fixedPeer 0 [0x02; 0x29] in
  let dateOut := mkDate SUNDAY 4 5 6 in
  let r := fst (readDate peer dateOut Wire_idle) in
  (2 < 4)%nat /\ (2 < 3)%nat /\ year r = 6 /\ month r = 5.
Proof.
  intros peer dateOut r.
  assert (Hlen : (List.length [0x02; 0x29] < 4)%nat) by (simpl; lia).
  assert (Hlen3 : (List.length [0x02; 0x29] < 3)%nat) by (simpl; lia).
  destruct (readDate_short_reply peer Wire_idle dateOut [0x02; 0x29]
              eq_refl eq_refl Hlen) as (Hy & Hm & _).
  split; [lia|]. split; [lia|]. split; [exact Hy | exact (Hm Hlen3)].
Defined.

(** ** Complete replies *)

Lemma readTime_loop_three_overwrites (b0 b1 b2 : Z) (timeOut timeOut' : Time) :
  readTime_loop [b0; b1; b2] 0 timeOut = readTime_loop [b0; b1; b2] 0 timeOut'.
Proof.
  rewrite !readTime_loop_three.
  rewrite !readTime_step_hours, !readTime_step_minutes, !readTime_step_seconds.
  destruct (to_bool (Z.land (to_byte b2) (Z.shiftl 1 6))); reflexivity.
Qed.

Lemma readDate_loop_four_overwrites (b0 b1 b2 b3 : Z) (dateOut dateOut' : Date) :
  readDate_loop [b0; b1; b2; b3] 0 dateOut =
  readDate_loop [b0; b1; b2; b3] 0 dateOut'.
Proof. reflexivity. Qed.

(** X10: a complete reply overwrites every field: when at least three
    bytes arrive [readTime] returns the same value whatever the caller's
    struct held, and so does [readDate] when at least four arrive. *)
Theorem readers_overwrite_every_field :
  forall (peer : Peer) (w : Wire) (timeOut timeOut' : Time)
         (dateOut dateOut' : Date),
    (to_byte (ack peer (trace w) CLOCK_ADDR [SEC_ADDR] false) = 0 ->
     (3 <= List.length
             (reply peer (trace w ++ [Transmitted CLOCK_ADDR [SEC_ADDR] false 0])
                CLOCK_ADDR 3 true))%nat ->
     fst (readTime peer timeOut w) = fst (readTime peer timeOut' w)) /\
    (to_byte (ack peer (trace w) CLOCK_ADDR [DAY_ADDR] false) = 0 ->
     (4 <= List.length
             (reply peer (trace w ++ [Transmitted CLOCK_ADDR [DAY_ADDR] false 0])
                CLOCK_ADDR 4 true))%nat ->
     fst (readDate peer dateOut w) = fst (readDate peer dateOut' w)).
Proof.
  intros peer w timeOut timeOut' dateOut dateOut'. split; intros Hack Hlen.
  - rewrite !readTime_run, Hack. simpl Z.eqb. cbv iota. cbn [fst].
    destruct (reply peer _ CLOCK_ADDR 3 true) as [|b0 [|b1 [|b2 rest]]];
      cbn [List.length] in Hlen; try lia.
    cbn [map].
    rewrite (readTime_loop_cons3 _ _ _ (map to_byte rest) timeOut).
    rewrite (readTime_loop_cons3 _ _ _ (map to_byte rest) timeOut').
    rewrite (readTime_loop_three_overwrites _ _ _ timeOut timeOut').
    reflexivity.
  - rewrite !readDate_run, Hack. simpl Z.eqb. cbv iota. cbn [fst].
    destruct (reply peer _ CLOCK_ADDR 4 true) as [|b0 [|b1 [|b2 [|b3 rest]]]];
      cbn [List.length] in Hlen; try lia.
    cbn [map].
    rewrite (readDate_loop_cons4 _ _ _ _ (map to_byte rest) dateOut).
    rewrite (readDate_loop_cons4 _ _ _ _ (map to_byte rest) dateOut').
    rewrite (readDate_loop_four_overwrites _ _ _ _ dateOut dateOut').
    reflexivity.
Qed.

Lemma readers_overwrite_every_field_witness :
  let peer := fixedPeer 0 [0x45; 0x30; 0x71; 0x97] in
  (3 <= 4)%nat /\ (4 <= 4)%nat /\
  fst (readTime peer confTime Wire_idle) =
    fst (readTime peer (mkTime false 0 0 0 false NONE) Wire_idle) /\
  fst (readDate peer confDate Wire_idle) =
    fst (readDate peer (mkDate 0 0 0 0) Wire_idle).
Proof.
  intros peer.
  destruct (readers_overwrite_every_field peer Wire_idle confTime
              (mkTime false 0 0 0 false NONE) confDate (mkDate 0 0 0 0))
    as [Ht Hd].
  split; [lia|]. split; [lia|].
  split; [apply Ht | apply Hd]; try reflexivity; simpl; lia.
Defined.

(** ** What the readers guarantee about any bytes *)

Lemma readTime_step_agrees (val i : Z) (timeOut : Time) :
  meridianAgrees timeOut -> meridianAgrees (readTime_step val i timeOut).
Proof.
  intros H. unfold readTime_step.
  destruct (i <? 2).
  - destruct (i =? 0); exact H.
  - destruct (i =? 2); [|exact H].
    destruct (to_bool (Z.land val (Z.shiftl 1 6))).
    + destruct (to_bool (Z.land val (Z.shiftl 1 5))); [right | left]; reflexivity.
    + reflexivity.
Qed.

Lemma readTime_step_hours_agrees (val : Z) (timeOut : Time) :
  meridianAgrees (readTime_step val 2 timeOut).
Proof.
  rewrite readTime_step_hours.
  destruct (to_bool (Z.land val (Z.shiftl 1 6))).
  - destruct (to_bool (Z.land val (Z.shiftl 1 5))); [right | left]; reflexivity.
  - reflexivity.
Qed.

Lemma readTime_loop_agrees (rx : list Z) :
  forall (i : Z) (timeOut : Time),
    meridianAgrees timeOut -> meridianAgrees (readTime_loop rx i timeOut).
Proof.
  induction rx as [|b rest IH]; intros i timeOut H; [exact H|].
  cbn [readTime_loop]. apply IH. apply readTime_step_agrees. exact H.
Qed.

(** X11: whatever three or more bytes arrive and whatever the caller's
    struct held, the value [readTime] returns has a meridian that agrees
    with its mode: AM or PM in 12-hour mode, none in 24-hour mode. *)
Theorem readTime_meridian_agrees :
  forall (peer : Peer) (w : Wire) (timeOut : Time),
    to_byte (ack peer (trace w) CLOCK_ADDR [SEC_ADDR] false) = 0 ->
    (3 <= List.length
            (reply peer (trace w ++ [Transmitted CLOCK_ADDR [SEC_ADDR] false 0])
               CLOCK_ADDR 3 true))%nat ->
    meridianAgrees (fst (readTime peer timeOut w)).
Proof.
  intros peer w timeOut Hack Hlen.
  rewrite readTime_run, Hack. simpl Z.eqb. cbv iota. cbn [fst].
  destruct (reply peer _ CLOCK_ADDR 3 true) as [|b0 [|b1 [|b2 rest]]];
    cbn [List.length] in Hlen; try lia.
  cbn [map]. rewrite (readTime_loop_cons3 _ _ _ (map to_byte rest) timeOut).
  apply readTime_loop_agrees.
  rewrite readTime_loop_three. apply readTime_step_hours_agrees.
Qed.

Lemma readTime_meridian_agrees_witness :
  let peer := fixedPeer 0 [0xFF; 0xFF; 0xFF] in
  (3 <= 3)%nat /\
  meridianAgrees (fst (readTime peer confTime Wire_idle)).
Proof.
  intros peer. split; [lia|].
  apply (readTime_meridian_agrees peer Wire_idle confTime);
    [reflexivity | simpl; lia].
Defined.

(** The count formed under a tens mask of [n] bits is at most the mask
    times ten plus fifteen. *)
Lemma bcdValue_bound (val n : Z) :
  0 <= n <= 4 ->
  0 <= bcdValue val (Z.ones n) <= (2 ^ n - 1) * 10 + 15.
Proof.
  intros Hn. unfold bcdValue.
  rewrite Z.land_ones by lia.
  assert (Hlow : Z.land val 15 = val mod 16)
    by (change 15 with (Z.ones 4); apply Z.land_ones; lia).
  rewrite !Hlow. clear Hlow.
  assert (Hpow : 1 <= 2 ^ n <= 16).
  { split.
    - pose proof (Z.pow_pos_nonneg 2 n ltac:(lia) ltac:(lia)). lia.
    - change 16 with (2 ^ 4). apply Z.pow_le_mono_r; lia. }
  pose proof (Z.mod_pos_bound (Z.shiftr val 4) (2 ^ n) ltac:(lia)) as Ht.
  pose proof (Z.mod_pos_bound val 16 ltac:(lia)) as Hu.
  set (p := 2 ^ n) in *.
  set (tens := Z.shiftr val 4 mod p) in *.
  set (units := val mod 16) in *.
  clearbody tens units p.
  rewrite (to_byte_small tens) by lia.
  rewrite (to_byte_small units) by lia.
  rewrite to_byte_small by nia. nia.
Qed.

Lemma readTime_step_bounds (val i : Z) (timeOut : Time) :
  decodedTimeBounds timeOut -> decodedTimeBounds (readTime_step val i timeOut).
Proof.
  intros (Hs & Hm & Hh).
  pose proof (bcdValue_bound val 3 ltac:(lia)) as H7.
  pose proof (bcdValue_bound val 1 ltac:(lia)) as H1.
  pose proof (bcdValue_bound val 2 ltac:(lia)) as H3.
  change (Z.ones 3) with 7 in H7. change (Z.ones 1) with 1 in H1.
  change (Z.ones 2) with 3 in H3.
  change ((2 ^ 3 - 1) * 10 + 15) with 85 in H7.
  change ((2 ^ 1 - 1) * 10 + 15) with 25 in H1.
  change ((2 ^ 2 - 1) * 10 + 15) with 45 in H3.
  unfold decodedTimeBounds in *.
  destruct (Z.eq_dec i 0) as [->|H0].
  { rewrite readTime_step_seconds.
    cbn [set_second set_disableOsc second minut hour is12Hour]. lia. }
  destruct (Z.eq_dec i 1) as [->|H1'].
  { rewrite readTime_step_minutes.
    cbn [set_minut second minut hour is12Hour]. lia. }
  destruct (Z.eq_dec i 2) as [->|H2].
  { rewrite readTime_step_hours.
    destruct (to_bool (Z.land val (Z.shiftl 1 6)));
      cbn [set_hour set_meridianIndicator set_is12Hour
           second minut hour is12Hour]; lia. }
  unfold readTime_step.
  destruct (Z.ltb_spec i 2).
  - destruct (Z.eqb_spec i 0); [lia|].
    fold (bcdValue val 7).
    cbn [set_minut second minut hour is12Hour]. lia.
  - destruct (Z.eqb_spec i 2); lia.
Qed.

Lemma readTime_loop_bounds (rx : list Z) :
  forall (i : Z) (timeOut : Time),
    decodedTimeBounds timeOut -> decodedTimeBounds (readTime_loop rx i timeOut).
Proof.
  induction rx as [|b rest IH]; intros i timeOut H; [exact H|].
  cbn [readTime_loop]. apply IH. apply readTime_step_bounds. exact H.
Qed.

Lemma readTime_loop_three_bounds (b0 b1 b2 : Z) (timeOut : Time) :
  decodedTimeBounds (readTime_loop [b0; b1; b2] 0 timeOut).
Proof.
  rewrite readTime_loop_three.
  rewrite readTime_step_hours, readTime_step_minutes, readTime_step_seconds.
  pose proof (bcdValue_bound (to_byte b0) 3 ltac:(lia)) as Hs.
  pose proof (bcdValue_bound (to_byte b1) 3 ltac:(lia)) as Hm.
  pose proof (bcdValue_bound (to_byte b2) 1 ltac:(lia)) as H12.
  pose proof (bcdValue_bound (to_byte b2) 2 ltac:(lia)) as H24.
  change (Z.ones 3) with 7 in Hs, Hm. change (Z.ones 1) with 1 in H12.
  change (Z.ones 2) with 3 in H24.
  change ((2 ^ 3 - 1) * 10 + 15) with 85 in Hs, Hm.
  change ((2 ^ 1 - 1) * 10 + 15) with 25 in H12.
  change ((2 ^ 2 - 1) * 10 + 15) with 45 in H24.
  unfold decodedTimeBounds.
  destruct (to_bool (Z.land (to_byte b2) (Z.shiftl 1 6)));
    cbn [set_hour set_meridianIndicator set_is12Hour set_minut set_second
         set_disableOsc second minut hour is12Hour]; lia.
Qed.

(** X12: the read path does not clamp: whatever three or more bytes
    arrive, the value [readTime] returns has seconds and minutes in
    [0, 85] and an hour in [0, 25] in 12-hour mode and in [0, 45] in
    24-hour mode, whatever the caller's struct held. *)
Theorem readTime_decoded_bounds :
  forall (peer : Peer) (w : Wire) (timeOut : Time),
    to_byte (ack peer (trace w) CLOCK_ADDR [SEC_ADDR] false) = 0 ->
    (3 <= List.length
            (reply peer (trace w ++ [Transmitted CLOCK_ADDR [SEC_ADDR] false 0])
               CLOCK_ADDR 3 true))%nat ->
    decodedTimeBounds (fst (readTime peer timeOut w)).
Proof.
  intros peer w timeOut Hack Hlen.
  rewrite readTime_run, Hack. simpl Z.eqb. cbv iota. cbn [fst].
  destruct (reply peer _ CLOCK_ADDR 3 true) as [|b0 [|b1 [|b2 rest]]];
    cbn [List.length] in Hlen; try lia.
  cbn [map]. rewrite (readTime_loop_cons3 _ _ _ (map to_byte rest) timeOut).
  apply readTime_loop_bounds. apply readTime_loop_three_bounds.
Qed.

Lemma readTime_decoded_bounds_witness :
  let peer := fixedPeer 0 [0x7F; 0x7F; 0x3F] in
  (3 <= 3)%nat /\
  decodedTimeBounds (fst (readTime peer confTime Wire_idle)) /\
  fst (readTime peer confTime Wire_idle) = mkTime false 85 85 45 false NONE.
Proof.
  intros peer. split; [lia|]. split; [|reflexivity].
  apply (readTime_decoded_bounds peer Wire_idle confTime);
    [reflexivity | simpl; lia].
Defined.

Lemma readDate_step_bounds (val i : Z) (dateOut : Date) :
  decodedDateBounds dateOut -> decodedDateBounds (readDate_step val i dateOut).
Proof.
  intros (Hw & Hd & Hm & Hy).
  pose proof (readDate_dow_valid val) as Hdow.
  unfold validDow, MONDAY, SUNDAY in Hdow.
  pose proof (bcdValue_bound val 2 ltac:(lia)) as H3.
  pose proof (bcdValue_bound val 1 ltac:(lia)) as H1.
  pose proof (bcdValue_bound val 4 ltac:(lia)) as H15.
  change (Z.ones 2) with 3 in H3. change (Z.ones 1) with 1 in H1.
  change (Z.ones 4) with 15 in H15.
  change ((2 ^ 2 - 1) * 10 + 15) with 45 in H3.
  change ((2 ^ 1 - 1) * 10 + 15) with 25 in H1.
  change ((2 ^ 4 - 1) * 10 + 15) with 165 in H15.
  unfold bcdValue in H3, H1, H15.
  unfold decodedDateBounds, readDate_step.
  destruct i as [|[[?|?|]|[?|?|]|]|?];
    cbn [set_dow set_date set_month set_year dow date month year]; lia.
Qed.

Lemma readDate_loop_bounds (rx : list Z) :
  forall (i : Z) (dateOut : Date),
    decodedDateBounds dateOut -> decodedDateBounds (readDate_loop rx i dateOut).
Proof.
  induction rx as [|b rest IH]; intros i dateOut H; [exact H|].
  cbn [readDate_loop]. apply IH. apply readDate_step_bounds. exact H.
Qed.

Lemma readDate_loop_four_bounds (b0 b1 b2 b3 : Z) (dateOut : Date) :
  decodedDateBounds (readDate_loop [b0; b1; b2; b3] 0 dateOut).
Proof.
  rewrite (readDate_loop_four_overwrites b0 b1 b2 b3 dateOut (mkDate 1 0 0 0)).
  apply readDate_loop_bounds.
  unfold decodedDateBounds. cbn [dow date month year]. lia.
Qed.

(** X13: the read path does not clamp: whatever four or more bytes
    arrive, the value [readDate] returns has a day of week in [1, 7], a
    day of month in [0, 45], a month in [0, 25] and a year in [0, 165],
    whatever the caller's struct held. *)
Theorem readDate_decoded_bounds :
  forall (peer : Peer) (w : Wire) (dateOut : Date),
    to_byte (ack peer (trace w) CLOCK_ADDR [DAY_ADDR] false) = 0 ->
    (4 <= List.length
            (reply peer (trace w ++ [Transmitted CLOCK_ADDR [DAY_ADDR] false 0])
               CLOCK_ADDR 4 true))%nat ->
    decodedDateBounds (fst (readDate peer dateOut w)).
Proof.
  intros peer w dateOut Hack Hlen.
  rewrite readDate_run, Hack. simpl Z.eqb. cbv iota. cbn [fst].
  destruct (reply peer _ CLOCK_ADDR 4 true) as [|b0 [|b1 [|b2 [|b3 rest]]]];
    cbn [List.length] in Hlen; try lia.
  cbn [map]. rewrite (readDate_loop_cons4 _ _ _ _ (map to_byte rest) dateOut).
  apply readDate_loop_bounds. apply readDate_loop_four_bounds.
Qed.

Lemma readDate_decoded_bounds_witness :
  let peer := fixedPeer 0 [0x00; 0x3F; 0x1F; 0xFF] in
  (4 <= 4)%nat /\
  decodedDateBounds (fst (readDate peer confDate Wire_idle)) /\
  fst (readDate peer confDate Wire_idle) = mkDate MONDAY 45 25 165.
Proof.
  intros peer. split; [lia|]. split; [|reflexivity].
  apply (readDate_decoded_bounds peer Wire_idle confDate);
    [reflexivity | simpl; lia].
Defined.

(** ** The RAM accessors *)

(** [loadFromRTCRAM] run on any bus. *)
Lemma loadFromRTCRAM_run (peer : Peer) (initAddr : Z) (w : Wire) :
  let addr := to_byte (getSafeRamAddr (to_byte initAddr)) in
  let status := to_byte (ack peer (trace w) CLOCK_ADDR [addr] false) in
  let sent := trace w ++ [Transmitted CLOCK_ADDR [addr] false status] in
  let bytes := map to_byte (reply peer sent CLOCK_ADDR 1 true) in
  let events := sent ++ [Requested CLOCK_ADDR 1 true bytes] in
  loadFromRTCRAM peer initAddr w =
  match bytes with
  | [] => (None, mkWire CLOCK_ADDR [] [] events (serialOut w))
  | b :: rest => (Some b, mkWire CLOCK_ADDR [] rest events (serialOut w))
  end.
Proof.
  unfold loadFromRTCRAM, bind, Wire_beginTransmission, Wire_write,
    Wire_endTransmission, Wire_requestFrom, Wire_available, Wire_read,
    busStatus, busReply, ret.
  cbn [fst snd trace txAddress txBuffer rxBuffer serialOut app].
  rewrite !(to_byte_small (to_byte _)) by apply to_byte_range.
  change (to_byte CLOCK_ADDR) with CLOCK_ADDR.
  destruct (reply peer _ CLOCK_ADDR 1 true) as [|b rest].
  - reflexivity.
  - cbn [map List.length]. rewrite Nat2Z.inj_succ.
    destruct (Z.gtb_spec (Z.succ (Z.of_nat (List.length (map to_byte rest)))) 0)
      as [Hpos|Hneg]; [|lia].
    cbn [fst snd rxBuffer txAddress txBuffer trace serialOut].
    rewrite to_byte_idem. reflexivity.
Qed.

Lemma loadFromRTCRAM_trace (peer : Peer) (initAddr : Z) (w : Wire) :
  let addr := to_byte (getSafeRamAddr (to_byte initAddr)) in
  let status := to_byte (ack peer (trace w) CLOCK_ADDR [addr] false) in
  let sent := trace w ++ [Transmitted CLOCK_ADDR [addr] false status] in
  trace (snd (loadFromRTCRAM peer initAddr w)) =
  sent ++ [Requested CLOCK_ADDR 1 true
             (map to_byte (reply peer sent CLOCK_ADDR 1 true))].
Proof.
  cbv zeta. rewrite loadFromRTCRAM_run.
  destruct (map to_byte _); reflexivity.
Qed.

(** X14: [loadFromRTCRAM] sends the mapped address without a stop and
    then requests one byte whatever status the addressing transaction
    got; it returns the first byte delivered, and when no byte is
    delivered it reaches its end without returning a value. *)
Theorem loadFromRTCRAM_returns_first_byte :
  forall (peer : Peer) (initAddr : Z) (w : Wire),
    let addr := to_byte (getSafeRamAddr (to_byte initAddr)) in
    let status := to_byte (ack peer (trace w) CLOCK_ADDR [addr] false) in
    let sent := trace w ++ [Transmitted CLOCK_ADDR [addr] false status] in
    let delivered := reply peer sent CLOCK_ADDR 1 true in
    let r := loadFromRTCRAM peer initAddr w in
    fst r = match delivered with
            | [] => None
            | b :: _ => Some (to_byte b)
            end /\
    trace (snd r) =
      sent ++ [Requested CLOCK_ADDR 1 true (map to_byte delivered)] /\
    serialOut (snd r) = serialOut w.
Proof.
  intros peer initAddr w addr status sent delivered r.
  subst r. rewrite loadFromRTCRAM_run.
  fold addr. fold status. fold sent. fold delivered.
  destruct delivered as [|b rest]; repeat split.
Qed.

(** X15: whatever integer is passed as offset, the word address
    [saveInRTCRAM] and [loadFromRTCRAM] put on the bus is the same for
    both, is never below 0x08, so never one of the clock and control
    registers 0x00..0x07, and is at most 0x40; it is inside the window
    that ends at 0x3F exactly when the offset, as a byte, is not
    congruent to 56 modulo 57. *)
Theorem ram_word_address :
  forall (peer : Peer) (initAddr data : Z) (w : Wire),
    exists addr,
      RTC_RAM_LOWER <= addr <= RTC_RAM_UPPER + 1 /\
      (addr <= RTC_RAM_UPPER <-> to_byte initAddr mod 57 <> 56) /\
      (exists status,
         trace (snd (saveInRTCRAM peer initAddr data w)) =
         trace w ++ [Transmitted CLOCK_ADDR [addr; to_byte data] true status]) /\
      (exists status bytes,
         trace (snd (loadFromRTCRAM peer initAddr w)) =
         trace w ++ [Transmitted CLOCK_ADDR [addr] false status;
                     Requested CLOCK_ADDR 1 true bytes]).
Proof.
  intros peer initAddr data w.
  pose proof (to_byte_range initAddr) as Hb.
  pose proof (getSafeRamAddr_byte_range (to_byte initAddr) ltac:(lia)) as Hr.
  pose proof (getSafeRamAddr_outside_iff (to_byte initAddr) ltac:(lia)) as Ho.
  unfold RTC_RAM_LOWER, RTC_RAM_UPPER in *.
  exists (to_byte (getSafeRamAddr (to_byte initAddr))).
  rewrite (to_byte_small (getSafeRamAddr (to_byte initAddr))) by lia.
  split; [lia|]. split; [|split].
  - split; intros H.
    + intros Hc. apply Ho in Hc. lia.
    + destruct (Z.le_gt_cases (getSafeRamAddr (to_byte initAddr)) 63) as [Hle|Hgt];
        [exact Hle|].
      exfalso. apply H. apply Ho. lia.
  - eexists. rewrite saveInRTCRAM_run.
    rewrite (to_byte_small (getSafeRamAddr (to_byte initAddr))) by lia.
    reflexivity.
  - do 2 eexists. rewrite loadFromRTCRAM_trace.
    rewrite (to_byte_small (getSafeRamAddr (to_byte initAddr))) by lia.
    rewrite <- app_assoc. reflexivity.
Qed.

(** X16: on byte offsets the mapper is the identity shifted by 0x08 up
    to offset 56, and two offsets get the same address exactly when they
    are congruent modulo 57. *)
Theorem getSafeRamAddr_aliasing :
  forall a b,
    0 <= a <= 255 -> 0 <= b <= 255 ->
    (a <= 56 -> getSafeRamAddr a = RTC_RAM_LOWER + a) /\
    (getSafeRamAddr a = getSafeRamAddr b <-> a mod 57 = b mod 57).
Proof.
  intros a b Ha Hb. unfold getSafeRamAddr, RTC_RAM_LOWER.
  rewrite !Z.rem_mod_nonneg by lia.
  split.
  - intros Hle. rewrite Z.mod_small by lia. reflexivity.
  - split; intros H; lia.
Qed.

Lemma getSafeRamAddr_aliasing_witness :
  0 <= 5 <= 255 /\ 0 <= 62 <= 255 /\ 5 <= 56 /\
  getSafeRamAddr 5 = RTC_RAM_LOWER + 5 /\
  getSafeRamAddr 5 = getSafeRamAddr 62.
Proof.
  destruct (getSafeRamAddr_aliasing 5 62 ltac:(lia) ltac:(lia)) as [Hid Halias].
  split; [lia|]. split; [lia|]. split; [lia|].
  split; [apply Hid; lia | apply Halias; reflexivity].
Defined.

(** ** What the writers report *)

(** [configureTime] run on any bus. *)
Lemma configureTime_run (peer : Peer) (t : Time) (w : Wire) :
  let status :=
    to_byte (ack peer (trace w) CLOCK_ADDR (SEC_ADDR :: timeRegisters t) true) in
  configureTime peer t w =
  (tt,
   mkWire CLOCK_ADDR [] (rxBuffer w)
     (trace w ++
      [Transmitted CLOCK_ADDR (SEC_ADDR :: timeRegisters t) true status])
     (if status =? 0
      then serialOut w ++ ["The hour was configured succesfully"%string]
      else serialOut w)).
Proof.
  unfold configureTime, bind, Wire_beginTransmission, Wire_write,
    Wire_endTransmission, busStatus, ret, Serial_println, timeRegisters.
  cbn [fst snd trace txAddress txBuffer rxBuffer serialOut app].
  rewrite secondsRegister_byte, minutesRegister_byte, hoursRegister_byte.
  change (to_byte CLOCK_ADDR) with CLOCK_ADDR.
  change (to_byte SEC_ADDR) with SEC_ADDR.
  destruct (_ =? 0); reflexivity.
Qed.

(** [configureDate] run on any bus. *)
Lemma configureDate_run (peer : Peer) (d : Date) (w : Wire) :
  let status :=
    to_byte (ack peer (trace w) CLOCK_ADDR (DAY_ADDR :: dateRegisters d) true) in
  configureDate peer d w =
  (tt,
   mkWire CLOCK_ADDR [] (rxBuffer w)
     (trace w ++
      [Transmitted CLOCK_ADDR (DAY_ADDR :: dateRegisters d) true status])
     (if status =? 0
      then serialOut w
      else serialOut w ++ ["Date configured correctly"%string])).
Proof.
  unfold configureDate, bind, Wire_beginTransmission, Wire_write,
    Wire_endTransmission, busStatus, ret, Serial_println, dateRegisters,
    to_bool.
  cbn [fst snd trace txAddress txBuffer rxBuffer serialOut app].
  change (to_byte CLOCK_ADDR) with CLOCK_ADDR.
  change (to_byte DAY_ADDR) with DAY_ADDR.
  destruct (_ =? 0); reflexivity.
Qed.

(** X17: [configureTime] prints its one message, "The hour was configured
    succesfully", exactly when the transport reports status 0 for its
    write; on any other status it prints nothing.  Either way it sends
    that one transaction, with a stop, and requests nothing. *)
Theorem configureTime_prints_on_success :
  forall (peer : Peer) (t : Time) (w : Wire),
    let status :=
      to_byte (ack peer (trace w) CLOCK_ADDR (SEC_ADDR :: timeRegisters t) true) in
    let w' := snd (configureTime peer t w) in
    serialOut w' =
      (if status =? 0
       then serialOut w ++ ["The hour was configured succesfully"%string]
       else serialOut w) /\
    trace w' =
      trace w ++
      [Transmitted CLOCK_ADDR (SEC_ADDR :: timeRegisters t) true status] /\
    rxBuffer w' = rxBuffer w.
Proof.
  intros peer t w status w'. subst w'.
  rewrite configureTime_run. fold status. repeat split.
Qed.

(** X18: [configureDate] prints its one message, "Date configured
    correctly", exactly when the transport reports a nonzero status for
    its write, that is when the write was not acknowledged; on status 0
    it prints nothing.  Either way it sends that one transaction, with a
    stop, and requests nothing. *)
Theorem configureDate_prints_on_failure :
  forall (peer : Peer) (d : Date) (w : Wire),
    let status :=
      to_byte (ack peer (trace w) CLOCK_ADDR (DAY_ADDR :: dateRegisters d) true) in
    let w' := snd (configureDate peer d w) in
    serialOut w' =
      (if status =? 0
       then serialOut w
       else serialOut w ++ ["Date configured correctly"%string]) /\
    trace w' =
      trace w ++
      [Transmitted CLOCK_ADDR (DAY_ADDR :: dateRegisters d) true status] /\
    rxBuffer w' = rxBuffer w.
Proof.
  intros peer d w status w'. subst w'.
  rewrite configureDate_run. fold status. repeat split.
Qed.

(** ** The bus use of an acknowledged read *)

(** X19: when its addressing transaction is acknowledged, [readTime]
    puts exactly two things on the bus: the address of the seconds
    register written to device 104 without a stop, then one request with
    a stop for three bytes; [readDate] does the same with the address of
    the day-of-week register and four bytes.  Both leave the receive
    buffer and the transmit buffer empty and print nothing. *)
Theorem readers_bus_use :
  forall (peer : Peer) (w : Wire) (timeOut : Time) (dateOut : Date),
    (to_byte (ack peer (trace w) CLOCK_ADDR [SEC_ADDR] false) = 0 ->
     let sent := trace w ++ [Transmitted CLOCK_ADDR [SEC_ADDR] false 0] in
     let w' := snd (readTime peer timeOut w) in
     trace w' =
       sent ++ [Requested CLOCK_ADDR 3 true
                  (map to_byte (reply peer sent CLOCK_ADDR 3 true))] /\
     rxBuffer w' = [] /\ txBuffer w' = [] /\ serialOut w' = serialOut w) /\
    (to_byte (ack peer (trace w) CLOCK_ADDR [DAY_ADDR] false) = 0 ->
     let sent := trace w ++ [Transmitted CLOCK_ADDR [DAY_ADDR] false 0] in
     let w' := snd (readDate peer dateOut w) in
     trace w' =
       sent ++ [Requested CLOCK_ADDR 4 true
                  (map to_byte (reply peer sent CLOCK_ADDR 4 true))] /\
     rxBuffer w' = [] /\ txBuffer w' = [] /\ serialOut w' = serialOut w).
Proof.
  intros peer w timeOut dateOut. split; intros Hack sent w'; subst w' sent.
  - rewrite readTime_run, Hack. simpl Z.eqb. cbv iota. repeat split.
  - rewrite readDate_run, Hack. simpl Z.eqb. cbv iota. repeat split.
Qed.

Lemma readers_bus_use_witness :
  let peer := fixedPeer 0 [0xD8; 0x37; 0x20] in
  trace (snd (readTime peer confTime Wire_idle)) =
    [Transmitted CLOCK_ADDR [SEC_ADDR] false 0;
     Requested CLOCK_ADDR 3 true [0xD8; 0x37; 0x20]] /\
  rxBuffer (snd (readDate peer confDate Wire_idle)) = [].
Proof.
  intros peer.
  destruct (readers_bus_use peer Wire_idle confTime confDate) as [Ht Hd].
  destruct (Ht eq_refl) as (Htrace & _).
  destruct (Hd eq_refl) as (_ & Hrx & _).
  split; [exact Htrace | exact Hrx].
Defined.

(** ** The layout of the time registers *)

Lemma cvtDec2Bcd_clamp_bound (v lo hi : Z) :
  0 <= lo <= hi -> hi <= 99 ->
  0 <= cvtDec2Bcd (clamp v lo hi) <= 16 * (hi / 10) + 9.
Proof.
  intros Hlo Hhi.
  pose proof (clamp_range v lo hi ltac:(lia)) as Hc.
  rewrite cvtDec2Bcd_digits by lia.
  pose proof (Z.mod_pos_bound (clamp v lo hi) 10 ltac:(lia)).
  assert (0 <= clamp v lo hi / 10 <= hi / 10).
  { split; [apply Z.div_pos; lia | apply Z.div_le_mono; lia]. }
  lia.
Qed.

Lemma lor_bit_low (k n x : Z) :
  0 <= n -> 0 <= x < 2 ^ n -> Z.lor (k * 2 ^ n) x = k * 2 ^ n + x.
Proof.
  intros Hn Hx. rewrite <- (lor_shiftl_low k x n Hn Hx).
  rewrite Z.shiftl_mul_pow2 by exact Hn. reflexivity.
Qed.

(** X20: the bytes [configureTime] builds are sums of their bit fields,
    for every time value: the seconds register is 128 when the
    oscillator is to be disabled plus the BCD of the clamped seconds; the
    minutes register is the BCD of the clamped minutes; the hours
    register is, in 12-hour mode, 64 plus 32 for PM plus the BCD of the
    hour clamped to [1, 12] (a meridian of NONE adds nothing, as its bit
    falls on the mode bit), and in 24-hour mode the BCD of the hour
    clamped to [0, 23].  So bit 7 of the minutes and hours registers is
    never set. *)
Theorem timeRegisters_layout :
  forall t : Time,
    secondsRegister t =
      128 * of_bool (disableOsc t) + cvtDec2Bcd (clamp (second t) 0 59) /\
    minutesRegister t = cvtDec2Bcd (clamp (minut t) 0 59) /\
    hoursRegister t =
      (if is12Hour t then
         64 + (match meridianIndicator t with PM => 32 | _ => 0 end)
         + cvtDec2Bcd (clamp (hour t) 1 12)
       else cvtDec2Bcd (clamp (hour t) 0 23)) /\
    minutesRegister t < 128 /\ hoursRegister t < 128.
Proof.
  intros [osc s m h b mer].
  cbn [disableOsc second minut hour is12Hour meridianIndicator].
  pose proof (cvtDec2Bcd_clamp_bound s 0 59 ltac:(lia) ltac:(lia)) as Hs.
  pose proof (cvtDec2Bcd_clamp_bound m 0 59 ltac:(lia) ltac:(lia)) as Hm.
  pose proof (cvtDec2Bcd_clamp_bound h 1 12 ltac:(lia) ltac:(lia)) as H12.
  pose proof (cvtDec2Bcd_clamp_bound h 0 23 ltac:(lia) ltac:(lia)) as H24.
  change (16 * (59 / 10) + 9) with 89 in Hs, Hm.
  change (16 * (12 / 10) + 9) with 25 in H12.
  change (16 * (23 / 10) + 9) with 41 in H24.
  assert (Hsec :
    secondsRegister (mkTime osc s m h b mer) =
    128 * of_bool osc + cvtDec2Bcd (clamp s 0 59)).
  { unfold secondsRegister. cbn [disableOsc second].
    destruct osc; cbn [of_bool].
    - change (to_byte (Z.shiftl 1 7)) with (1 * 2 ^ 7).
      rewrite lor_bit_low by (simpl; lia).
      change (1 * 2 ^ 7) with 128. rewrite to_byte_small by lia. lia.
    - change (to_byte (Z.shiftl 0 7)) with 0.
      rewrite Z.lor_0_l, to_byte_small by lia. lia. }
  assert (Hmin :
    minutesRegister (mkTime osc s m h b mer) = cvtDec2Bcd (clamp m 0 59)).
  { unfold minutesRegister. cbn [minut]. apply to_byte_small. lia. }
  assert (Hhour :
    hoursRegister (mkTime osc s m h b mer) =
    if b then 64 + (match mer with PM => 32 | _ => 0 end)
              + cvtDec2Bcd (clamp h 1 12)
    else cvtDec2Bcd (clamp h 0 23)).
  { unfold hoursRegister. cbn [is12Hour hour meridianIndicator].
    destruct b; cbn [of_bool].
    - destruct mer; cbn [amOrPm_val].
      + change (Z.lor (to_byte (Z.shiftl 1 6)) (to_byte (Z.shiftl 0 5)))
          with (1 * 2 ^ 6).
        rewrite lor_bit_low by (simpl; lia).
        change (1 * 2 ^ 6) with 64. rewrite to_byte_small by lia. lia.
      + change (Z.lor (to_byte (Z.shiftl 1 6)) (to_byte (Z.shiftl 1 5)))
          with (3 * 2 ^ 5).
        rewrite lor_bit_low by (simpl; lia).
        change (3 * 2 ^ 5) with 96. rewrite to_byte_small by lia. lia.
      + change (Z.lor (to_byte (Z.shiftl 1 6)) (to_byte (Z.shiftl 2 5)))
          with (1 * 2 ^ 6).
        rewrite lor_bit_low by (simpl; lia).
        change (1 * 2 ^ 6) with 64. rewrite to_byte_small by lia. lia.
    - change (to_byte (Z.shiftl 0 6)) with 0.
      rewrite Z.lor_0_l, to_byte_small by lia. reflexivity. }
  rewrite Hsec, Hmin, Hhour.
  split; [reflexivity|]. split; [reflexivity|]. split; [reflexivity|].
  split; [lia|]. destruct b; [destruct mer|]; lia.
Qed.
